(** * Monthly banking ETL job ([Glue/etl.py])

    A shallow embedding of the job script: the module globals, the
    extractor, the transformer and the driver, written in a small
    state-and-exception monad over an explicit world (log, trace of
    calls that leave the process, object storage, relational source,
    secret store, clock).  The data-frame engine is modelled by its
    documented relational meaning: inner equi-joins, name resolution,
    window frames and CSV reads and writes.  Python is modelled where
    the script depends on it: unbound locals, call arity, the [with]
    statement, truth values and [dict.get] on the value of the secret. *)

From Stdlib Require Import ZArith QArith Qcanon Lia Ascii String.
From stdpp Require Import base option list sorting strings pretty gmap fin_maps.

Local Open Scope string_scope.
Local Open Scope list_scope.

(* ================================================================== *)
(** * Dates ([datetime], [calendar]) *)
(* ================================================================== *)

(** Only the calendar part of [datetime.now()] is ever used by the script
    ([strftime('%Y%m')], [strftime('%Y%m%d')], [.date()]). *)
Record date := Date { year : nat; month : nat; day : nat }.

Global Instance date_eq_dec : EqDecision date.
Proof. solve_decision. Defined.

(** [calendar.isleap] *)
Definition isleap (y : nat) : bool :=
  (y mod 4 =? 0)%nat && (negb (y mod 100 =? 0)%nat || (y mod 400 =? 0)%nat).

(** [calendar.mdays] *)
Definition mdays (m : nat) : nat :=
  match m with
  | 1 => 31 | 2 => 28 | 3 => 31 | 4 => 30 | 5 => 31 | 6 => 30
  | 7 => 31 | 8 => 31 | 9 => 30 | 10 => 31 | 11 => 30 | 12 => 31
  | _ => 0
  end%nat.

(** Second component of [calendar.monthrange(year, month)]; the script
    discards the first one ([_, last_day = ...]). *)
Definition monthrange (y m : nat) : nat :=
  (mdays m + (if (m =? 2)%nat && isleap y then 1 else 0))%nat.


(** [d.replace(day=n)] *)
Definition replace_day (d : date) (n : nat) : date :=
  {| year := year d; month := month d; day := n |}.

(** Chronological order, as the source database compares dates. *)
Definition date_ltb (a b : date) : bool :=
  (year a <? year b)%nat
  || ((year a =? year b)%nat
      && ((month a <? month b)%nat
          || ((month a =? month b)%nat && (day a <? day b)%nat))).

Definition date_leb (a b : date) : bool := negb (date_ltb b a).

(** Zero-padded decimal, as [%m], [%d] and [isoformat] print numbers. *)
Definition zfill (width : nat) (s : string) : string :=
  String.concat "" (replicate (width - String.length s) "0") +:+ s.

Definition dec (width n : nat) : string := zfill width (pretty (N.of_nat n)).

(** [d.strftime('%Y%m')] *)
Definition strftime_Ym (d : date) : string := dec 4 (year d) +:+ dec 2 (month d).

(** [d.strftime('%Y%m%d')] *)
Definition strftime_Ymd (d : date) : string :=
  dec 4 (year d) +:+ dec 2 (month d) +:+ dec 2 (day d).

(** [str(d)] for a [date], as an f-string interpolates it. *)
Definition isoformat (d : date) : string :=
  dec 4 (year d) +:+ "-" +:+ dec 2 (month d) +:+ "-" +:+ dec 2 (day d).

(* ================================================================== *)
(** * Data frames *)
(* ================================================================== *)

(** A non-null cell.  CSV reads produce [VStr] only; [to_date] produces
    [VDate]; [avg] produces [VDouble].  Doubles are idealised as exact
    rationals. *)
Inductive cell :=
| VStr (s : string)
| VDate (d : date)
| VDouble (q : Qc).

Global Instance cell_eq_dec : EqDecision cell.
Proof. solve_decision. Defined.

(** An attribute is a column name together with the identifier of the
    read (or derivation) that produced it: [df1['idBank']] and
    [df2['idBank']] are different attributes even when both frames were
    read from the same files. *)
Abbreviation attr := (nat * string)%type.

(** A row maps attributes to cells; an absent attribute is SQL [NULL]. *)
Abbreviation Row := (gmap attr cell).

Record DataFrame := { df_schema : list attr; df_rows : list Row }.

(** A CSV object: lines of fields. *)
Abbreviation CsvFile := (list (list string)).

(** A table of the relational source. *)
Record DbTable := { db_columns : list string; db_rows : list (gmap string cell) }.

(** A value as [json.loads] returns it: [None], a [bool], an [int], a
    [float] (idealised as an exact rational, like the doubles of the
    engine), a [str], a [list], or a [dict] with string keys. *)
#[warnings="-register-all"] Inductive json :=
| JNull
| JBool (b : bool)
| JInt (n : Z)
| JFloat (x : Qc)
| JString (s : string)
| JArray (items : list json)
| JObject (members : gmap string json).

(** The parts of the engine and of Python whose results are data formats
    rather than relational structure. *)
Class Engine := {
  (** Spark's cast of a string to a double ([None] is [NULL]). *)
  cast_double : string → option Qc;
  (** How a double is printed in a CSV field. *)
  render_double : Qc → string;
  (** [F.to_date(value, format)] on a string ([None] is [NULL]). *)
  to_date : string → string → option date;
  (** [json.loads]: the value of a JSON text, whatever its kind; [None]
      when the text is not JSON (the call raises [JSONDecodeError]). *)
  json_loads : string → option json;
  (** [str] of a float, a list or a dict. *)
  py_repr : json → string
}.

(* ================================================================== *)
(** * Exceptions, log records, external calls, the world *)
(* ================================================================== *)

(** All of these derive from [Exception]; [except Exception] catches each. *)
Inductive exn :=
| ValueError (msg : string)
| TypeError (msg : string)
| UnboundLocalError (msg : string)
| AttributeError (msg : string)
| JSONDecodeError (msg : string)
| AnalysisException (msg : string)
(** raised by a call that leaves the process (JVM gateway, JDBC, object
    storage, secret store) *)
| ExternalError (msg : string).

Global Instance exn_eq_dec : EqDecision exn.
Proof. solve_decision. Defined.

Inductive log_record :=
| LogInfo (msg : string)        (* [logger.info] *)
| LogError (msg : string)       (* [logger.error] *)
| LogException (e : exn).       (* [logger.exception(e)] *)

(** Calls that leave the Python process. *)
Inductive event :=
| GlueContextCreate                          (* GlueContext(SparkContext.getOrCreate()) *)
| SparkContextCreate                         (* SparkContext() *)
| SessionGetOrCreate (app : string)          (* SparkSession(sc).builder.appName(app).getOrCreate() *)
| GetSecretValue (secret_id : string)        (* boto3 client + get_secret_value *)
| JdbcLoad (url dbtable : string)            (* spark.read.format('jdbc')...load() *)
| CsvRead (glob : string)                    (* spark.read.option('header','true').csv(glob) *)
| Collect                                    (* ....collect() *)
| CsvWrite (path : string)                   (* df.write.mode('overwrite').csv(path) *)
| SparkStop.                                 (* spark.stop() *)

Global Instance event_eq_dec : EqDecision event.
Proof. solve_decision. Defined.

Record World := {
  w_argv : list string;              (* glueContext._jvm.sys.argv *)
  w_now : date;                      (* datetime.now() *)
  w_secrets : gmap string string;    (* SecretString per secret id *)
  w_db : gmap string DbTable;        (* the relational source *)
  w_s3 : gmap string CsvFile;        (* object storage *)
  w_oracle : nat → event → option exn;
                                     (* for each position in the run: which call
                                        fails there, and how *)
  w_next_id : nat;                   (* next fresh attribute identifier *)
  w_log : list log_record;           (* what the logger has emitted *)
  w_trace : list event               (* external calls made so far *)
}.

(** How the call [ev] ends if it is the next call made in [w].  The world
    decides this for every position in the run, so the same call made
    again later may end otherwise: a read that succeeded once can fail
    when it is repeated. *)
Definition w_fault (w : World) (ev : event) : option exn :=
  w_oracle w (length (w_trace w)) ev.

Definition with_log (f : list log_record → list log_record) (w : World) : World :=
  {| w_argv := w_argv w; w_now := w_now w; w_secrets := w_secrets w; w_db := w_db w;
     w_s3 := w_s3 w; w_oracle := w_oracle w; w_next_id := w_next_id w;
     w_log := f (w_log w); w_trace := w_trace w |}.

Definition with_trace (f : list event → list event) (w : World) : World :=
  {| w_argv := w_argv w; w_now := w_now w; w_secrets := w_secrets w; w_db := w_db w;
     w_s3 := w_s3 w; w_oracle := w_oracle w; w_next_id := w_next_id w;
     w_log := w_log w; w_trace := f (w_trace w) |}.

(** The world after the calls [evs] were made, in that order. *)
Definition after_calls (evs : list event) (w : World) : World :=
  with_trace (λ t, t ++ evs) w.

Definition with_s3 (f : gmap string CsvFile → gmap string CsvFile) (w : World) : World :=
  {| w_argv := w_argv w; w_now := w_now w; w_secrets := w_secrets w; w_db := w_db w;
     w_s3 := f (w_s3 w); w_oracle := w_oracle w; w_next_id := w_next_id w;
     w_log := w_log w; w_trace := w_trace w |}.

Definition with_next_id (f : nat → nat) (w : World) : World :=
  {| w_argv := w_argv w; w_now := w_now w; w_secrets := w_secrets w; w_db := w_db w;
     w_s3 := w_s3 w; w_oracle := w_oracle w; w_next_id := f (w_next_id w);
     w_log := w_log w; w_trace := w_trace w |}.

(* ================================================================== *)
(** * The monad of Python statements *)
(* ================================================================== *)

Inductive outcome (A : Type) :=
| Returned (a : A)
| Raised (e : exn).
Global Arguments Returned {A} a.
Global Arguments Raised {A} e.

Definition Py (A : Type) : Type := World → outcome A * World.

Definition ret {A} (a : A) : Py A := λ w, (Returned a, w).

Definition raise {A} (e : exn) : Py A := λ w, (Raised e, w).

Definition bind {A B} (m : Py A) (k : A → Py B) : Py B :=
  λ w, match m w with
       | (Returned a, w') => k a w'
       | (Raised e, w') => (Raised e, w')
       end.

Global Instance py_ret : MRet Py := @ret.
Global Instance py_bind : MBind Py := λ A B k m, bind m k.

(** Lifting an outcome computed without touching the world. *)
Definition lift {A} (o : outcome A) : Py A := λ w, (o, w).

Definition gets {A} (f : World → A) : Py A := λ w, (Returned (f w), w).

Definition modify (f : World → World) : Py unit := λ w, (Returned tt, f w).

(** [try: body  except Exception as e: handler e] *)
Definition try_except {A} (body : Py A) (handler : exn → Py A) : Py A :=
  λ w, match body w with
       | (Returned a, w') => (Returned a, w')
       | (Raised e, w') => handler e w'
       end.

(** [try: body  finally: fin]: [fin] runs on both exits; the outcome of
    [body] stands unless [fin] itself raises. *)
Definition try_finally {A} (body : Py A) (fin : Py unit) : Py A :=
  λ w, match body w with
       | (r, w') => match fin w' with
                    | (Returned _, w'') => (r, w'')
                    | (Raised e, w'') => (Raised e, w'')
                    end
       end.

(** [for x in xs: body x] *)
Fixpoint for_each {A} (xs : list A) (body : A → Py unit) : Py unit :=
  match xs with
  | [] => ret tt
  | x :: xs' => body x;; for_each xs' body
  end.

(** The logger has one stream handler; emitting a record appends it. *)
Definition log (r : log_record) : Py unit := modify (with_log (λ l, l ++ [r])).

(** A call that leaves the process: it is recorded, then it fails if the
    world says so for this position in the run. *)
Definition extern (ev : event) : Py unit :=
  λ w, let w' := with_trace (λ t, t ++ [ev]) w in
       match w_fault w ev with
       | Some e => (Raised e, w')
       | None => (Returned tt, w')
       end.

Definition fresh_id : Py nat :=
  λ w, (Returned (w_next_id w), with_next_id S w).

(** Reading a local variable that may not have been assigned yet. *)
Definition read_local {A} (name : string) (v : option A) : Py A :=
  match v with
  | Some a => ret a
  | None => raise (UnboundLocalError
                     ("local variable '" +:+ name +:+ "' referenced before assignment"))
  end.

(** ** Python values *)

(** The truth value of an object, as [if not x] tests it; [None] stands
    for Python's [None]. *)
Definition py_truthy (v : option json) : bool :=
  match v with
  | None | Some JNull => false
  | Some (JBool b) => b
  | Some (JInt n) => negb (n =? 0)%Z
  | Some (JFloat x) => negb (bool_decide (x = Q2Qc 0))
  | Some (JString s) => negb (bool_decide (s = ""))
  | Some (JArray items) => negb (bool_decide (length items = 0%nat))
  | Some (JObject members) => negb (bool_decide (size members = 0%nat))
  end.

(** [type(v).__name__] *)
Definition py_type_name (v : json) : string :=
  match v with
  | JNull => "NoneType"
  | JBool _ => "bool"
  | JInt _ => "int"
  | JFloat _ => "float"
  | JString _ => "str"
  | JArray _ => "list"
  | JObject _ => "dict"
  end.

(** [v.get(key)]: only a [dict] has the method; a missing key gives
    [None]. *)
Definition dict_get (v : json) (key : string) : Py (option json) :=
  match v with
  | JObject members => ret (members !! key)
  | _ => raise (AttributeError
                  ("'" +:+ py_type_name v +:+ "' object has no attribute 'get'"))
  end.

(** [str(v)], as an f-string interpolates a value. *)
Definition py_format `{Engine} (v : option json) : string :=
  match v with
  | None | Some JNull => "None"
  | Some (JBool true) => "True"
  | Some (JBool false) => "False"
  | Some (JInt n) => pretty n
  | Some (JString s) => s
  | Some v => py_repr v
  end.

(* ================================================================== *)
(** * The data-frame engine: relational meaning of the calls used *)
(* ================================================================== *)

(** [df['name']], [orderBy('name')], [F.col('name')]: a name must denote
    exactly one attribute of the frame. *)
Definition resolve (df : DataFrame) (name : string) : outcome attr :=
  match filter (λ a : attr, a.2 = name) (df_schema df) with
  | [a] => Returned a
  | [] => Raised (AnalysisException ("cannot resolve '" +:+ name +:+ "' given input columns"))
  | _ => Raised (AnalysisException ("Reference '" +:+ name +:+ "' is ambiguous"))
  end.

(** [df.name]: attribute access; a name that is no column is an
    [AttributeError]. *)
Definition getattr_col (df : DataFrame) (name : string) : outcome attr :=
  match filter (λ a : attr, a.2 = name) (df_schema df) with
  | [a] => Returned a
  | [] => Raised (AttributeError ("'DataFrame' object has no attribute '" +:+ name +:+ "'"))
  | _ => Raised (AnalysisException ("Reference '" +:+ name +:+ "' is ambiguous"))
  end.

(** SQL [=] used as a predicate: true only for two equal non-null cells. *)
Definition sql_eq (x y : option cell) : bool :=
  match x, y with
  | Some a, Some b => bool_decide (a = b)
  | _, _ => false
  end.

(** [l.join(r, a == b)]: inner join (the default [how]). *)
Definition df_join (l r : DataFrame) (a b : attr) : DataFrame :=
  {| df_schema := df_schema l ++ df_schema r;
     df_rows :=
       x ← df_rows l;
       y ← df_rows r;
       if sql_eq ((x ∪ y) !! a) ((x ∪ y) !! b) then [x ∪ y] else [] |}.

(** Ascending order of a column: nulls first. *)
Definition cell_rank (c : cell) : nat :=
  match c with VStr _ => 0 | VDate _ => 1 | VDouble _ => 2 end.

Definition cell_leb (x y : option cell) : bool :=
  match x, y with
  | None, _ => true
  | Some _, None => false
  | Some (VStr a), Some (VStr b) => String.leb a b
  | Some (VDate a), Some (VDate b) => date_leb a b
  | Some (VDouble a), Some (VDouble b) => bool_decide (a ≤ b)%Qc
  | Some a, Some b => (cell_rank a <=? cell_rank b)%nat
  end.

Definition row_le (a : attr) (x y : Row) : Prop :=
  Is_true (cell_leb (x !! a) (y !! a)).

Global Instance row_le_dec a : RelDecision (row_le a).
Proof. intros x y. unfold row_le. apply _. Defined.

Definition sort_rows (a : attr) (rows : list Row) : list Row :=
  merge_sort (row_le a) rows.

(** [withColumn(name, ...)]: a column of that name is replaced in place,
    otherwise the new one is appended. *)
Definition put_column (new : attr) (schema : list attr) : list attr :=
  if bool_decide (new.2 ∈ schema.*2)
  then map (λ a : attr, if bool_decide (a.2 = new.2) then new else a) schema
  else schema ++ [new].

Definition put_cell (new : attr) (v : option cell) (r : Row) : Row :=
  let kept := filter (λ kv : attr * cell, kv.1.2 ≠ new.2) r in
  match v with
  | Some c => <[new := c]> kept
  | None => kept
  end.

(** [Window.partitionBy(p).orderBy(o).rowsBetween(lo, hi)] *)
Record WindowSpec := {
  partition_by : string;
  order_by : string;
  rows_lo : Z;
  rows_hi : Z
}.

(** The partitions of a window: the rows of each distinct key (null is a
    key of its own). *)
Definition partition_rows (pa : attr) (rows : list Row) : list (list Row) :=
  map (λ k, filter (λ r : Row, r !! pa = k) rows)
      (remove_dups (map (λ r : Row, r !! pa) rows)).

(** The frame of the row at position [i] of an ordered partition: the rows
    at positions [i+lo .. i+hi] that exist. *)
Definition frame (lo hi : Z) (part : list Row) (i : nat) : list Row :=
  drop (Z.to_nat (Z.of_nat i + lo)) (take (Z.to_nat (Z.of_nat i + hi + 1)) part).

Definition Qc_of_nat (n : nat) : Qc := Qc_of_Z (Z.of_nat n).

(** [avg]: nulls are skipped; no non-null input gives null. *)
Definition sql_avg (vals : list (option Qc)) : option Qc :=
  match omap id vals with
  | [] => None
  | xs => Some (foldl Qcplus (Q2Qc 0) xs / Qc_of_nat (length xs))%Qc
  end.

Section Engine.
Context `{Engine}.

(** The number in a cell, as [avg] casts its argument. *)
Definition cell_double (c : option cell) : option Qc :=
  match c with
  | Some (VDouble q) => Some q
  | Some (VStr s) => cast_double s
  | _ => None
  end.

(** [F.avg(col).over(window)] on one ordered partition. *)
Definition avg_over (va : attr) (lo hi : Z) (part : list Row) (i : nat) : option Qc :=
  sql_avg (map (λ r : Row, cell_double (r !! va)) (frame lo hi part i)).

(** The rows of [withColumn(new, F.avg(va).over(window))]. *)
Definition window_rows (new pa oa va : attr) (lo hi : Z) (rows : list Row) : list Row :=
  part ← sort_rows oa <$> partition_rows pa rows;
  imap (λ i r, put_cell new (VDouble <$> avg_over va lo hi part i) r) part.

(** [F.to_date(col, fmt)] on one cell. *)
Definition cell_to_date (fmt : string) (c : option cell) : option cell :=
  match c with
  | Some (VStr s) => VDate <$> to_date s fmt
  | Some (VDate d) => Some (VDate d)
  | _ => None
  end.

(** A cell as a CSV field; null is the empty field. *)
Definition render_cell (c : option cell) : string :=
  match c with
  | None => ""
  | Some (VStr s) => s
  | Some (VDate d) => isoformat d
  | Some (VDouble q) => render_double q
  end.

(** What [df.write.csv(path, header=...)] stores. *)
Definition to_csv (header : bool) (df : DataFrame) : CsvFile :=
  (if header then [(df_schema df).*2] else [])
  ++ map (λ r : Row, map (λ a, render_cell (r !! a)) (df_schema df)) (df_rows df).

(** A Python value of a collected row in an f-string. *)
Definition py_str (c : option cell) : string :=
  match c with
  | None => "None"
  | Some c => render_cell (Some c)
  end.
End Engine.

(** The attribute of column [n] in the frame of read [id]. *)
Definition tag (id : nat) (n : string) : attr := (id, n).

Global Instance tag_inj id : Inj (=) (=) (tag id).
Proof. intros x y. unfold tag. congruence. Qed.

(** Letter case, on the letters A to Z. *)
Definition lower_char (c : ascii) : ascii :=
  let n := nat_of_ascii c in
  if bool_decide (65 ≤ n ≤ 90)%nat then ascii_of_nat (n + 32) else c.

Fixpoint lower (s : string) : string :=
  match s with
  | EmptyString => EmptyString
  | String c s' => String (lower_char c) (lower s')
  end.

(** The column names Spark makes of a header line: an empty field becomes
    [_c<index>]; a field that occurs more than once in the line, letter
    case aside, gets its index appended; any other field is taken as it
    is. *)
Definition safe_header (row : list string) : list string :=
  let header_names := map lower row in
  let duplicates :=
    filter (λ n, (2 ≤ length (filter (λ m, m = n) header_names))%nat) header_names in
  imap (λ index value,
          if bool_decide (value = "") then "_c" +:+ pretty (N.of_nat index)
          else if bool_decide (lower value ∈ duplicates)
               then value +:+ pretty (N.of_nat index)
               else value)
       row.

(** Reading CSV with a header line: every field is a string and the empty
    field is null. *)
Definition row_of_fields (id : nat) (names fields : list string) : Row :=
  list_to_map
    (omap (λ nf : string * string,
             if bool_decide (nf.2 = "") then None else Some (tag id nf.1, VStr nf.2))
          (zip names fields)).

(** The header line of the first object names the columns; the first
    line of every object is left out of the rows. *)
Definition from_csv (id : nat) (files : list CsvFile) : DataFrame :=
  let names := safe_header (default [] (head files ≫= head)) in
  {| df_schema := map (tag id) names;
     df_rows := map (row_of_fields id names) (files ≫= drop 1) |}.

(** Path globbing: [*] stands for any run of characters other than [/]. *)
Fixpoint glob_match (p : string) : string → bool :=
  match p with
  | EmptyString => λ s, bool_decide (s = "")
  | String c p' =>
      if bool_decide (c = "*"%char)
      then fix star (s : string) : bool :=
             glob_match p' s
             || match s with
                | String d s' => negb (bool_decide (d = "/"%char)) && star s'
                | EmptyString => false
                end
      else λ s, match s with
                | String d s' => bool_decide (c = d) && glob_match p' s'
                | EmptyString => false
                end
  end.

(** ** The relational source *)

(** The query the extractor sends: all rows of one table in a date range. *)
Record Query := { q_table : string; q_start : date; q_end : date }.

(** The WHERE clause, as the database evaluates it on a row whose
    [date_column] is a date: [date_column >= start AND date_column < end].
    A null never satisfies a comparison. *)
Definition where_clause (q : Query) (r : gmap string cell) : bool :=
  match r !! "date_column" with
  | Some (VDate d) => date_leb (q_start q) d && date_ltb d (q_end q)
  | _ => false
  end.

(** The rows the query selects. *)
Definition select_rows (t : DbTable) (q : Query) : list (gmap string cell) :=
  filter (λ r, where_clause q r = true) (db_rows t).

(** [SELECT * FROM table WHERE ...] as the frame the JDBC read yields. *)
Definition db_select (id : nat) (t : DbTable) (q : Query) : DataFrame :=
  {| df_schema := map (tag id) (db_columns t);
     df_rows := map (kmap (M2 := gmap attr) (tag id)) (select_rows t q) |}.

(* ================================================================== *)
(** * Engine calls as statements *)
(* ================================================================== *)

Global Instance outcome_ret : MRet outcome := @Returned.
Global Instance outcome_bind : MBind outcome := λ A B k o,
  match o with
  | Returned a => k a
  | Raised e => Raised e
  end.

(** The session object; the script holds exactly one. *)
Inductive SparkSession : Set := Session.

(** The connection properties [main] builds.  [user] and [password] come
    from [dict.get]: any value of the secret, or [None]. *)
Record AuroraProperties := {
  ap_user : option json;
  ap_password : option json;
  ap_driver : string;
  ap_url : string
}.

(** [spark.read.format('jdbc').option(...)...load()]: the frame of the
    query, with the schema the source reports. *)
Definition spark_read_jdbc (spark : SparkSession) (props : AuroraProperties)
    (dbtable : string) (q : Query) : Py DataFrame :=
  extern (JdbcLoad (ap_url props) dbtable);;
  t ← gets (λ w, w_db w !! q_table q);
  match t with
  | None => raise (ExternalError ("Table '" +:+ q_table q +:+ "' doesn't exist"))
  | Some t =>
      if bool_decide ("date_column" ∈ db_columns t)
      then id ← fresh_id; mret (db_select id t q)
      else raise (ExternalError "Unknown column 'date_column' in 'where clause'")
  end.

(** [with obj as name:] on a frame.  [DataFrame] defines neither
    [__enter__] nor [__exit__], so the statement raises as soon as its
    expression has been evaluated, and its block never starts.  The
    error is the [TypeError] of Python 3.11 and later; earlier versions
    raise an [AttributeError] at the same point. *)
Definition not_a_context_manager : exn :=
  TypeError "'DataFrame' object does not support the context manager protocol".

Definition with_enter (df : DataFrame) : Py DataFrame :=
  raise not_a_context_manager.

(** [spark.read.option('header', 'true').csv(glob)] *)
Definition spark_read_csv (spark : SparkSession) (glob : string) : Py DataFrame :=
  extern (CsvRead glob);;
  files ← gets (λ w, (map_to_list
                        (filter (λ kv : string * CsvFile, glob_match glob kv.1 = true)
                                (w_s3 w))).*2);
  match files with
  | [] => raise (AnalysisException ("Path does not exist: " +:+ glob))
  | _ => id ← fresh_id; mret (from_csv id files)
  end.

(** [df.orderBy(name)] *)
Definition df_orderBy (df : DataFrame) (name : string) : outcome DataFrame :=
  a ← resolve df name;
  mret {| df_schema := df_schema df; df_rows := sort_rows a (df_rows df) |}.

(** [df.select(name, ...)] *)
Definition df_select (df : DataFrame) (names : list string) : outcome DataFrame :=
  attrs ← mapM (resolve df) names;
  mret {| df_schema := attrs;
          df_rows := map (filter (λ kv : attr * cell, kv.1 ∈ attrs)) (df_rows df) |}.

(** [df.filter(col == value)] for a collected Python value. *)
Definition df_filter_eq (df : DataFrame) (a : attr) (v : option cell) : DataFrame :=
  {| df_schema := df_schema df;
     df_rows := filter (λ r : Row, sql_eq (r !! a) v = true) (df_rows df) |}.

Section EngineCalls.
Context `{Engine}.

(** [df.write.mode('overwrite').csv(path, header=...)]: the object at
    [path] is replaced. *)
Definition df_write_csv (header : bool) (path : string) (df : DataFrame) : Py unit :=
  extern (CsvWrite path);;
  modify (with_s3 (λ s, <[path := to_csv header df]> s)).

(** [df.withColumn(name, F.to_date(src, fmt))] *)
Definition df_withColumn_to_date (df : DataFrame) (name src fmt : string) : Py DataFrame :=
  a ← lift (resolve df src);
  id ← fresh_id;
  mret {| df_schema := put_column (id, name) (df_schema df);
          df_rows := map (λ r : Row, put_cell (id, name) (cell_to_date fmt (r !! a)) r)
                         (df_rows df) |}.

(** [df.withColumn(name, F.avg(col).over(window))] *)
Definition df_withColumn_avg_over (df : DataFrame) (name col : string)
    (win : WindowSpec) : Py DataFrame :=
  pa ← lift (resolve df (partition_by win));
  oa ← lift (resolve df (order_by win));
  va ← lift (resolve df col);
  id ← fresh_id;
  mret {| df_schema := put_column (id, name) (df_schema df);
          df_rows := window_rows (id, name) pa oa va (rows_lo win) (rows_hi win)
                                 (df_rows df) |}.
End EngineCalls.

(* ================================================================== *)
(** * The job *)
(* ================================================================== *)

(** Module globals that do not depend on the clock. *)
Definition s3_base_path : string := "s3a://banking_data".
Definition landing : string := "bronze".
Definition transform : string := "silver".

Definition nl : string := String "010"%char "".

(** The f-string [sql_query] of the extractor. *)
Definition sql_text (q : Query) : string :=
  nl +:+ "            SELECT *"
  +:+ nl +:+ "            FROM " +:+ q_table q
  +:+ nl +:+ "            WHERE date_column >= '" +:+ isoformat (q_start q)
  +:+ "' AND date_column < '" +:+ isoformat (q_end q) +:+ "'"
  +:+ nl +:+ "        ".

(** The [dbtable] option of the JDBC read, [f'({sql_query}) as subquery']. *)
Definition dbtable_of (sql_query : string) : string :=
  "(" +:+ sql_query +:+ ") as subquery".

(** [Window.partitionBy('branch').orderBy(F.col('loan_date')).rowsBetween(-2, 0)] *)
Definition window_spec : WindowSpec :=
  {| partition_by := "branch"; order_by := "loan_date"; rows_lo := -2; rows_hi := 0 |}.

(** Values a Python call site can pass. *)
Inductive pyval :=
| PySession (s : SparkSession)
| PyStr (s : string).

Section Job.
Context `{Engine}.

(** The module global [year_month = datetime.now().strftime('%Y%m')],
    evaluated once, when the module is loaded. *)
Variable year_month : string.

(** ** [get_secrets] *)
Definition get_secrets (secret_name : string) : Py json :=
  try_except
    (extern (GetSecretValue secret_name);;
     secret_data ← gets (λ w, w_secrets w !! secret_name);
     match secret_data with
     | None | Some "" =>
         raise (ValueError "Failed to retrieve secrets from AWS Secrets Manager.")
     | Some s =>
         match json_loads s with
         | Some v => mret v
         | None => raise (JSONDecodeError s)
         end
     end)
    (λ e,
       log (LogError "Error while retrieving secrets from AWS Secrets Manager.");;
       log (LogException e);;
       raise e).

(** ** [create_spark_session] *)
Definition create_spark_session : Py SparkSession :=
  try_except
    (extern SparkContextCreate;;
     extern (SessionGetOrCreate "Data Extraction");;
     mret Session)
    (λ e,
       log (LogError "Failed to create SparkSession.");;
       log (LogException e);;
       raise e).

(** ** [extract_monthly_data] *)

(** The landing path of line 71. *)
Definition landing_path (table_name : string) : string :=
  s3_base_path +:+ "/" +:+ landing +:+ "/" +:+ table_name +:+ "/" +:+ year_month
  +:+ "/" +:+ table_name +:+ "_monthly_data_extract.csv".

(** The body of the [try] block: the query text, the first log line, then
    the [with] statement of lines 59-66 around lines 68-74.  The
    expression of the [with] statement is the JDBC load; what it returns
    is a [DataFrame]. *)
Definition extract_try (spark : SparkSession) (aurora_properties : AuroraProperties)
    (table_name : string) (start_date end_date : date) : Py unit :=
  let q := {| q_table := table_name; q_start := start_date; q_end := end_date |} in
  let sql_query := sql_text q in
  log (LogInfo ("Starting data extraction process for table: " +:+ table_name));;
  loaded ← spark_read_jdbc spark aurora_properties ("(" +:+ sql_query +:+ ") as subquery") q;
  df ← with_enter loaded;
  log (LogInfo "Data loaded successfully from Aurora.");;
  let s3_output_path := landing_path table_name in
  df_write_csv false s3_output_path df;;
  log (LogInfo "Data saved successfully to S3.").

Definition extract_monthly_data (spark : SparkSession)
    (aurora_properties : AuroraProperties) (table_name : string)
    (start_date end_date : date) : Py unit :=
  try_finally
    (try_except
       (extract_try spark aurora_properties table_name start_date end_date)
       (λ e,
          log (LogError ("An error occurred during data extraction for table: "
                         +:+ table_name));;
          log (LogException e);;
          raise e))
    (log (LogInfo ("Data extraction process completed for table: " +:+ table_name))).

(** ** [transform_monthly_data] *)

(** Lines 97-100: the chain of four joins. *)
Definition join_tables (df1 df2 df3 df4 df5 : DataFrame) : outcome DataFrame :=
  a1 ← resolve df1 "idBank";
  b1 ← resolve df2 "Bank_idBank";
  let j1 := df_join df1 df2 a1 b1 in
  a2 ← resolve df1 "idBranch";
  b2 ← resolve df3 "Branch_idBranch";
  let j2 := df_join j1 df3 a2 b2 in
  a3 ← resolve df1 "idClient";
  b3 ← resolve df4 "Client_idClient";
  let j3 := df_join j2 df4 a3 b3 in
  a4 ← resolve df1 "idAccount";
  b4 ← resolve df5 "Account_idAccount";
  mret (df_join j3 df5 a4 b4).

(** Lines 110-111: the moving average. *)
Definition add_avgLoanAmount (joined_df : DataFrame) : Py DataFrame :=
  df_withColumn_avg_over joined_df "avgLoanAmount" "Amount" window_spec.

(** The path of line 121. *)
Definition transform_path (bank_name current_date : string) : string :=
  s3_base_path +:+ "/" +:+ transform +:+ "/" +:+ bank_name +:+ "/" +:+ year_month
  +:+ "/" +:+ bank_name +:+ "_" +:+ current_date +:+ ".csv".

(** Lines 118-122: the loop over bank names.  The loop assigns
    [final_df] in its body, so each iteration starts from the frame the
    previous one left. *)
Fixpoint bank_loop (current_date : string) (final_df : DataFrame)
    (bank_names : list (option cell)) : Py unit :=
  match bank_names with
  | [] => mret tt
  | bank_name :: rest =>
      ba ← lift (getattr_col final_df "bank_name");
      let final_df := df_filter_eq final_df ba bank_name in
      final_df ← lift (df_select final_df ["idBranch"; "avgLoanAmount"]);
      let s3_output_path := transform_path (py_str bank_name) current_date in
      df_write_csv true s3_output_path final_df;;
      bank_loop current_date final_df rest
  end.

(** Lines 115-122.  [final_df] is a local of the function (it is
    assigned in the loop); its value on entry is whatever the preceding
    lines gave it. *)
Definition write_bank_files (final_df : option DataFrame) : Py unit :=
  current_date ← gets (λ w, strftime_Ymd (w_now w));
  fd ← read_local "final_df" final_df;
  na ← lift (resolve fd "Name");
  extern Collect;;
  let bank_names := remove_dups (map (λ r : Row, r !! na) (df_rows fd)) in
  bank_loop current_date fd bank_names.

(** The body of the [try] block.  Lines 89-111 assign [df1..df5] and
    [joined_df]; nothing assigns [final_df] (line 113 is a comment). *)
Definition transform_try (spark : SparkSession) (table_name : string) : Py unit :=
  let glob := s3_base_path +:+ "/" +:+ landing +:+ "/" +:+ table_name +:+ "/*.csv" in
  df1 ← spark_read_csv spark glob;
  df2 ← spark_read_csv spark glob;
  df3 ← spark_read_csv spark glob;
  df4 ← spark_read_csv spark glob;
  df5 ← spark_read_csv spark glob;
  joined_df ← lift (join_tables df1 df2 df3 df4 df5);
  joined_df ← lift (df_orderBy joined_df "date");
  joined_df ← df_withColumn_to_date joined_df "loan_date" "year_month" "yyyy-MM";
  joined_df ← add_avgLoanAmount joined_df;
  write_bank_files None.

Definition transform_monthly_data (spark : SparkSession) (table_name : string) : Py unit :=
  try_except
    (transform_try spark table_name)
    (λ e,
       log (LogError "An unexpected error occurred.");;
       log (LogException e)).

(** Calling [transform_monthly_data] with a list of positional
    arguments: Python binds them to [(spark, table_name)] before the
    body (and its [try]) starts. *)
Definition call_transform_monthly_data (args : list pyval) : Py unit :=
  match args with
  | [] => raise (TypeError "transform_monthly_data() missing 2 required positional arguments: 'spark' and 'table_name'")
  | [_] => raise (TypeError "transform_monthly_data() missing 1 required positional argument: 'table_name'")
  | [PySession spark; PyStr table_name] => transform_monthly_data spark table_name
  | [_; _] =>
      (* the first use of an ill-typed argument fails inside the [try] *)
      try_except
        (raise (AttributeError "object has no attribute"))
        (λ e,
           log (LogError "An unexpected error occurred.");;
           log (LogException e))
  | _ => raise (TypeError ("transform_monthly_data() takes 2 positional arguments but "
                           +:+ pretty (N.of_nat (length args)) +:+ " were given"))
  end.

(** ** [main] *)

(** Lines 160-165: the date window. *)
Definition start_date_of (current_date : date) : date := replace_day current_date 1.

Definition end_date_of (current_date : date) : date :=
  let last_day := monthrange (year current_date) (month current_date) in
  replace_day current_date last_day.

(** Lines 169-170: the extraction loop. *)
Definition extract_all (spark : SparkSession) (aurora_properties : AuroraProperties)
    (table_names : list string) (start_date end_date : date) : Py unit :=
  for_each table_names
    (λ table_name,
       extract_monthly_data spark aurora_properties table_name start_date end_date).

(** Lines 136-170, for the argument vector read at line 135; the result
    is the session. *)
Definition main_with_args (args : list string) : Py SparkSession :=
  if (length args <? 2)%nat
  then raise (ValueError "No table names provided as job parameters.")
  else
    let table_names := drop 1 args in
    spark ← create_spark_session;
    aurora_credentials ← get_secrets "your-aurora-secret-name";
    aurora_endpoint ← dict_get aurora_credentials "endpoint";
    if negb (py_truthy aurora_endpoint)
    then raise (ValueError "Aurora endpoint not found in Secrets Manager response.")
    else
      user ← dict_get aurora_credentials "username";
      password ← dict_get aurora_credentials "password";
      let aurora_properties :=
        {| ap_user := user;
           ap_password := password;
           ap_driver := "com.mysql.jdbc.Driver";
           ap_url := "jdbc:mysql://" +:+ py_format aurora_endpoint +:+ ":3306/BankingDB" |} in
      current_date ← gets w_now;
      let start_date := start_date_of current_date in
      let end_date := end_date_of current_date in
      extract_all spark aurora_properties table_names start_date end_date;;
      mret spark.

(** Lines 134-170: everything up to and including the extraction loop. *)
Definition main_stage : Py SparkSession :=
  extern GlueContextCreate;;
  args ← gets w_argv;
  main_with_args args.

(** The body of the [try] block of [main]: lines 134-170, then the call
    of the transformer (line 173), then [spark.stop()] (line 175). *)
Definition main_try : Py unit :=
  spark ← main_stage;
  call_transform_monthly_data [];;
  extern SparkStop.

Definition main : Py unit :=
  try_except
    main_try
    (λ e,
       log (LogError "An unexpected error occurred.");;
       log (LogException e)).
End Job.

(** Running the script: the module is loaded (which fixes [year_month]
    from the clock), then [main()] is called. *)
Definition run_script `{Engine} : Py unit :=
  λ w, main (strftime_Ym (w_now w)) w.

(* ================================================================== *)
(** * Notions used to state what a run did *)
(* ================================================================== *)

(** The world after the logger emitted [rs], one record after the other. *)
Definition logged (rs : list log_record) (w : World) : World :=
  foldl (λ w r, with_log (λ l, l ++ [r]) w) w rs.

(** The paths of the CSV writes among some calls. *)
Definition written_paths (evs : list event) : list string :=
  omap (λ ev, match ev with CsvWrite p => Some p | _ => None end) evs.

(** [w'] is [w] after some external calls, all satisfying [P]; storage
    may differ only at paths whose write satisfies [P]. *)
Definition emits (P : event → Prop) (w w' : World) : Prop :=
  ∃ evs, w_trace w' = w_trace w ++ evs
         ∧ Forall P evs
         ∧ ∀ p, ¬ P (CsvWrite p) → w_s3 w' !! p = w_s3 w !! p.

Definition run_emits {A} (P : event → Prop) (m : Py A) : Prop :=
  ∀ w, emits P w (m w).2.

(** A row all of whose cells belong to reads among [ids]. *)
Definition owned_by (ids : list nat) (r : Row) : Prop :=
  ∀ k : attr, is_Some (r !! k) → k.1 ∈ ids.

(** A frame as one read yields it: every attribute and every cell carries
    the identifier of that read. *)
Definition loaded (id : nat) (df : DataFrame) : Prop :=
  Forall (λ a : attr, a.1 = id) (df_schema df)
  ∧ Forall (owned_by [id]) (df_rows df).

(** The cells of a row that came from read [id]: the record of that
    table inside a joined row. *)
Definition row_part (id : nat) (r : Row) : Row :=
  filter (λ kv : attr * cell, kv.1.1 = id) r.

(** The join predicate on two records: both keys non-null and equal. *)
Definition key_match (x : Row) (a : attr) (y : Row) (b : attr) : Prop :=
  sql_eq (x !! a) (y !! b) = true.

(** The moving average as the specification words it, for one ordered
    partition [part] and the rows [group] computed for it: no row is
    dropped or otherwise changed; the first row carries its own amount, the
    second the mean of the first two, every later row the mean of the
    trailing three. *)
Definition trailing_three_averages (amount : Row → option Qc) (new : attr)
    (part group : list Row) : Prop :=
  length group = length part
  ∧ (∀ i r, part !! i = Some r →
            ∃ r', group !! i = Some r' ∧ ∀ a : attr, a.2 ≠ new.2 → r' !! a = r !! a)
  ∧ (∀ r, part !! 0%nat = Some r →
          ∃ r', group !! 0%nat = Some r' ∧ r' !! new = VDouble <$> amount r)
  ∧ (∀ p r, part !! 0%nat = Some p → part !! 1%nat = Some r →
            ∃ r', group !! 1%nat = Some r'
                  ∧ r' !! new = VDouble <$> sql_avg [amount p; amount r])
  ∧ (∀ k p q r, part !! k = Some p → part !! S k = Some q → part !! S (S k) = Some r →
                ∃ r', group !! S (S k) = Some r'
                      ∧ r' !! new = VDouble <$> sql_avg [amount p; amount q; amount r]).

(** Reads of CSV objects and nothing else. *)
Definition read_only (ev : event) : Prop := ∃ glob, ev = CsvRead glob.

(** The query call of one extraction. *)
Definition query_call (props : AuroraProperties) (table : string) (s e : date) : event :=
  JdbcLoad (ap_url props)
    (dbtable_of (sql_text {| q_table := table; q_start := s; q_end := e |})).

(** What an extraction that raises [err] has logged when it returns to
    its caller. *)
Definition failed_extraction_log (table : string) (err : exn) : list log_record :=
  [LogInfo ("Starting data extraction process for table: " +:+ table);
   LogError ("An error occurred during data extraction for table: " +:+ table);
   LogException err;
   LogInfo ("Data extraction process completed for table: " +:+ table)].

(** Session set-up, the secret and queries. *)
Definition staging_call (ev : event) : Prop :=
  match ev with
  | GlueContextCreate | SparkContextCreate | SessionGetOrCreate _
  | GetSecretValue _ | JdbcLoad _ _ => True
  | CsvRead _ | Collect | CsvWrite _ | SparkStop => False
  end.

(** A bound on the external calls of the driver: session set-up, the
    secret, queries, and no write but to landing paths of the named
    tables; no read of storage, no collect, no stop of the session. *)
Definition driver_call (year_month : string) (table_names : list string)
    (ev : event) : Prop :=
  match ev with
  | GlueContextCreate | SparkContextCreate | SessionGetOrCreate _
  | GetSecretValue _ | JdbcLoad _ _ => True
  | CsvWrite p => ∃ t, t ∈ table_names ∧ p = landing_path year_month t
  | CsvRead _ | Collect | SparkStop => False
  end.

(** The set-up calls of a run, in the order [main] makes them. *)
Definition setup_calls : list event :=
  [GlueContextCreate; SparkContextCreate; SessionGetOrCreate "Data Extraction";
   GetSecretValue "your-aurora-secret-name"].

(** The connection properties built from a secret that is an object
    (lines 153-158). *)
Definition properties_of `{Engine} (members : gmap string json) : AuroraProperties :=
  {| ap_user := members !! "username";
     ap_password := members !! "password";
     ap_driver := "com.mysql.jdbc.Driver";
     ap_url := "jdbc:mysql://" +:+ py_format (members !! "endpoint") +:+ ":3306/BankingDB" |}.

(** The glob of lines 89-93. *)
Definition landing_glob (table_name : string) : string :=
  s3_base_path +:+ "/" +:+ landing +:+ "/" +:+ table_name +:+ "/*.csv".

(** The characters of a string. *)
Definition chars (s : string) : list ascii := list_ascii_of_string s.

(** The objects a glob matches. *)
Definition matching_files (glob : string) (s3 : gmap string CsvFile) : list CsvFile :=
  (map_to_list (filter (λ kv : string * CsvFile, glob_match glob kv.1 = true) s3)).*2.

(* ================================================================== *)
(** * A sample engine and sample worlds *)
(* ================================================================== *)

(** Decimal digits to a number. *)
Definition digit_of (c : ascii) : option nat :=
  let n := nat_of_ascii c in
  if bool_decide (48 ≤ n ≤ 57)%nat then Some (n - 48)%nat else None.

Fixpoint digits_from (acc : nat) (s : string) : option nat :=
  match s with
  | EmptyString => Some acc
  | String c s' => d ← digit_of c; digits_from (10 * acc + d) s'
  end.

Definition parse_nat (s : string) : option nat :=
  match s with
  | EmptyString => None
  | _ => digits_from 0 s
  end.

(** A string between double quotes. *)
Definition quoted (s : string) : string :=
  String "034"%char "" +:+ s +:+ String "034"%char "".

Definition sample_secret : string :=
  "{" +:+ quoted "endpoint" +:+ ": " +:+ quoted "db.example" +:+ ", "
  +:+ quoted "username" +:+ ": " +:+ quoted "etl" +:+ ", "
  +:+ quoted "password" +:+ ": " +:+ quoted "pw" +:+ "}".

(** The value of the sample secret. *)
Definition sample_credentials : gmap string json :=
  <["endpoint" := JString "db.example"]>
    (<["username" := JString "etl"]> (<["password" := JString "pw"]> ∅)).

(** An engine that reads unsigned whole numbers, prints a double as a
    fraction, reads [yyyy-MM] months and knows one JSON document. *)
Global Instance sample_engine : Engine := {|
  cast_double s := Qc_of_nat <$> parse_nat s;
  render_double q :=
    pretty (Qnum (this q)) +:+ "/" +:+ pretty (Zpos (Qden (this q)));
  to_date s fmt :=
    if bool_decide (fmt = "yyyy-MM" ∧ String.length s = 7%nat
                    ∧ String.get 4 s = Some "-"%char)
    then y ← parse_nat (substring 0 4 s);
         m ← parse_nat (substring 5 2 s);
         if bool_decide (1 ≤ m ≤ 12)%nat then Some (Date y m 1) else None
    else None;
  json_loads s :=
    if bool_decide (s = sample_secret) then Some (JObject sample_credentials) else None;
  py_repr v := "<" +:+ py_type_name v +:+ ">"
|}.

Definition loan_row (d : date) (amount : string) : gmap string cell :=
  <["date_column" := VDate d]> (<["Amount" := VStr amount]> ∅).

Definition loan_table : DbTable :=
  {| db_columns := ["date_column"; "Amount"];
     db_rows := [loan_row (Date 2026 10 31) "5"; loan_row (Date 2026 11 1) "10";
                 loan_row (Date 2026 11 29) "20"; loan_row (Date 2026 11 30) "30";
                 loan_row (Date 2026 12 1) "40"] |}.

Definition no_fault : event → option exn := λ _, None.

(** A run on 3 November 2026 with the tables [Loan] and [Branch] named on
    the command line, both present in the source. *)
Definition sample_world : World :=
  {| w_argv := ["etl.py"; "Loan"; "Branch"];
     w_now := Date 2026 11 3;
     w_secrets := <["your-aurora-secret-name" := sample_secret]> ∅;
     w_db := <["Loan" := loan_table]> (<["Branch" := loan_table]> ∅);
     w_s3 := ∅;
     w_oracle := λ _, no_fault;
     w_next_id := 0;
     w_log := [];
     w_trace := [] |}.

Definition sample_props : AuroraProperties :=
  {| ap_user := Some (JString "etl"); ap_password := Some (JString "pw");
     ap_driver := "com.mysql.jdbc.Driver";
     ap_url := "jdbc:mysql://db.example:3306/BankingDB" |}.

(** The relational source refuses every connection. *)
Definition source_down : event → option exn :=
  λ ev, match ev with
        | JdbcLoad _ _ => Some (ExternalError "Communications link failure")
        | _ => None
        end.

(** The sample run with that refusal and a third table, [Client]. *)
Definition faulty_world : World :=
  {| w_argv := ["etl.py"; "Loan"; "Branch"; "Client"];
     w_now := Date 2026 11 3;
     w_secrets := <["your-aurora-secret-name" := sample_secret]> ∅;
     w_db := <["Loan" := loan_table]>
               (<["Branch" := loan_table]> (<["Client" := loan_table]> ∅));
     w_s3 := ∅;
     w_oracle := λ _, source_down;
     w_next_id := 0;
     w_log := [];
     w_trace := [] |}.

(** A frame as lines 89-111 would leave it for two banks: the bank name
    under both column names the loop uses, the branch and its average. *)
Definition two_banks : DataFrame :=
  {| df_schema := [(0, "Name"); (0, "bank_name"); (0, "idBranch"); (1, "avgLoanAmount")];
     df_rows :=
       [ <[(0, "Name") := VStr "A"]> (<[(0, "bank_name") := VStr "A"]>
           (<[(0, "idBranch") := VStr "1"]> (<[(1, "avgLoanAmount") := VDouble (Qc_of_nat 10)]> ∅)));
         <[(0, "Name") := VStr "B"]> (<[(0, "bank_name") := VStr "B"]>
           (<[(0, "idBranch") := VStr "2"]> (<[(1, "avgLoanAmount") := VDouble (Qc_of_nat 20)]> ∅))) ] |}.

(** Landing data of one table with a row for bank A and a row for bank B. *)
Definition bank_csv : CsvFile :=
  [ ["idBank"; "Bank_idBank"; "idBranch"; "Branch_idBranch"; "idClient"; "Client_idClient";
     "idAccount"; "Account_idAccount"; "date"; "year_month"; "branch"; "Amount"; "Name";
     "bank_name"];
    ["1"; "1"; "1"; "1"; "1"; "1"; "1"; "1"; "2026-10-05"; "2026-10"; "north"; "10"; "A"; "A"];
    ["2"; "2"; "2"; "2"; "2"; "2"; "2"; "2"; "2026-10-06"; "2026-10"; "south"; "20"; "B"; "B"] ].

Definition two_banks_world : World :=
  {| w_argv := ["etl.py"; "Bank"];
     w_now := Date 2026 11 3;
     w_secrets := <["your-aurora-secret-name" := sample_secret]> ∅;
     w_db := ∅;
     w_s3 := <["s3a://banking_data/bronze/Bank/part-00000.csv" := bank_csv]> ∅;
     w_oracle := λ _, no_fault;
     w_next_id := 0;
     w_log := [];
     w_trace := [] |}.

(** The same landing data with a third record whose [idBank] no record
    carries as [Bank_idBank]. *)
Definition orphan_csv : CsvFile :=
  bank_csv
  ++ [ ["3"; "9"; "3"; "3"; "3"; "3"; "3"; "3"; "2026-10-07"; "2026-10"; "west"; "30"; "C"; "C"] ].

(** A joined frame with two branches, rows out of date order. *)
Definition loan (branch : string) (m : nat) (amount : string) : Row :=
  <[(0, "branch") := VStr branch]>
    (<[(0, "loan_date") := VDate (Date 2026 m 1)]> (<[(0, "Amount") := VStr amount]> ∅)).

Definition loans_df : DataFrame :=
  {| df_schema := [(0, "branch"); (0, "loan_date"); (0, "Amount")];
     df_rows := [loan "north" 3 "60"; loan "south" 1 "5"; loan "north" 1 "10";
                 loan "north" 4 "40"; loan "north" 2 "20"] |}.

(** The command line names no table. *)
Definition no_tables_world : World :=
  {| w_argv := ["etl.py"];
     w_now := Date 2026 11 3;
     w_secrets := <["your-aurora-secret-name" := sample_secret]> ∅;
     w_db := <["Loan" := loan_table]> ∅;
     w_s3 := ∅;
     w_oracle := λ _, no_fault;
     w_next_id := 0;
     w_log := [];
     w_trace := [] |}.

(** An engine whose secrets parse to an object without an endpoint. *)
Definition endpointless_engine : Engine := {|
  cast_double s := Qc_of_nat <$> parse_nat s;
  render_double q :=
    pretty (Qnum (this q)) +:+ "/" +:+ pretty (Zpos (Qden (this q)));
  to_date s fmt := None;
  json_loads s := Some (JObject (<["username" := JString "etl"]> ∅));
  py_repr v := "<" +:+ py_type_name v +:+ ">"
|}.

(** An engine whose secrets parse to a list. *)
Definition list_secret_engine : Engine := {|
  cast_double s := Qc_of_nat <$> parse_nat s;
  render_double q :=
    pretty (Qnum (this q)) +:+ "/" +:+ pretty (Zpos (Qden (this q)));
  to_date s fmt := None;
  json_loads s := Some (JArray [JInt 1; JInt 2]);
  py_repr v := "<" +:+ py_type_name v +:+ ">"
|}.

(** The secret store refuses the request. *)
Definition secret_store_down : event → option exn :=
  λ ev, match ev with
        | GetSecretValue _ => Some (ExternalError "AccessDeniedException")
        | _ => None
        end.

Definition secret_store_down_world : World :=
  {| w_argv := ["etl.py"; "Loan"];
     w_now := Date 2026 11 3;
     w_secrets := ∅;
     w_db := <["Loan" := loan_table]> ∅;
     w_s3 := ∅;
     w_oracle := λ _, secret_store_down;
     w_next_id := 0;
     w_log := [];
     w_trace := [] |}.

(** The landing data of [two_banks_world], with the third read of the run
    failing. *)
Definition third_read_fails : nat → event → option exn :=
  λ position ev, if bool_decide (position = 2%nat)
                 then Some (ExternalError "Connection reset")
                 else None.

Definition flaky_storage_world : World :=
  {| w_argv := ["etl.py"; "Bank"];
     w_now := Date 2026 11 3;
     w_secrets := <["your-aurora-secret-name" := sample_secret]> ∅;
     w_db := ∅;
     w_s3 := <["s3a://banking_data/bronze/Bank/part-00000.csv" := bank_csv]> ∅;
     w_oracle := third_read_fails;
     w_next_id := 0;
     w_log := [];
     w_trace := [] |}.

(** Storage that holds the [Loan] extract where line 71 would put it. *)
Definition staged_world : World :=
  {| w_argv := ["etl.py"; "Loan"];
     w_now := Date 2026 11 3;
     w_secrets := <["your-aurora-secret-name" := sample_secret]> ∅;
     w_db := <["Loan" := loan_table]> ∅;
     w_s3 := <["s3a://banking_data/bronze/Loan/202611/Loan_monthly_data_extract.csv"
                 := [["2026-11-01"; "10"]; ["2026-11-29"; "20"]]]> ∅;
     w_oracle := λ _, no_fault;
     w_next_id := 0;
     w_log := [];
     w_trace := [] |}.

(** A header line with an empty field and a repeated name. *)
Definition odd_header_csv : CsvFile :=
  [ ["id"; ""; "Name"; "name"; "Amount"]; ["1"; "x"; "A"; "a"; "10"] ].

(* ================================================================== *)
(** * Checks of the definitions on small inputs *)
(* ================================================================== *)

Example strftime_Ym_ex : strftime_Ym (Date 2026 11 3) = "202611".
Proof. reflexivity. Qed.

Example isoformat_ex : isoformat (Date 2024 2 29) = "2024-02-29".
Proof. reflexivity. Qed.

Example glob_match_ex1 : glob_match "a/b/*.csv" "a/b/x.csv" = true.
Proof. reflexivity. Qed.

Example glob_match_ex2 : glob_match "a/b/*.csv" "a/b/202611/x.csv" = false.
Proof. reflexivity. Qed.

(** A header line with an empty field and a name that occurs twice,
    letter case aside. *)
Example odd_header_columns :
  (df_schema (from_csv 0 [odd_header_csv])).*2 = ["id"; "_c1"; "Name2"; "name3"; "Amount"].
Proof. vm_compute. reflexivity. Qed.

Example py_truthy_ex :
  map py_truthy [None; Some (JString ""); Some (JInt 0); Some (JArray []);
                 Some (JString "db.example"); Some (JInt 5)]
  = [false; false; false; false; true; true].
Proof. vm_compute. reflexivity. Qed.

(** The sample run, started on 3 November 2026: the calls it makes.  The
    query for [Loan] is the last one; [Branch] is never queried. *)
Example sample_run_calls :
  w_trace (run_script sample_world).2
  = [GlueContextCreate; SparkContextCreate; SessionGetOrCreate "Data Extraction";
     GetSecretValue "your-aurora-secret-name";
     JdbcLoad "jdbc:mysql://db.example:3306/BankingDB"
       ("(" +:+ nl +:+ "            SELECT *"
        +:+ nl +:+ "            FROM Loan"
        +:+ nl +:+ "            WHERE date_column >= '2026-11-01' AND date_column < '2026-11-30'"
        +:+ nl +:+ "        ) as subquery")].
Proof. vm_compute. reflexivity. Qed.

(** What it logged and stored: the [with] statement of the first
    extraction raises, the error passes through both handlers, and
    storage is as empty as it was. *)
Example sample_run_log :
  (run_script sample_world).1 = Returned tt
  ∧ w_log (run_script sample_world).2
    = [LogInfo "Starting data extraction process for table: Loan";
       LogError "An error occurred during data extraction for table: Loan";
       LogException not_a_context_manager;
       LogInfo "Data extraction process completed for table: Loan";
       LogError "An unexpected error occurred.";
       LogException not_a_context_manager]
  ∧ w_s3 (run_script sample_world).2 = ∅.
Proof. vm_compute. done. Qed.

(** A read that succeeded twice fails the third time it is made. *)
Example third_read_can_fail :
  let r := transform_try "202611" Session "Bank" flaky_storage_world in
  r.1 = Raised (ExternalError "Connection reset")
  ∧ w_trace r.2 = replicate 3 (CsvRead "s3a://banking_data/bronze/Bank/*.csv").
Proof. vm_compute. done. Qed.

(* ================================================================== *)
(** * The date window *)
(* ================================================================== *)

Section DateWindow.

Lemma date_ltb_lt (a b : date) :
  date_ltb a b = true ↔
  (year a < year b
   ∨ (year a = year b ∧ (month a < month b ∨ (month a = month b ∧ day a < day b))))%nat.
Proof.
  unfold date_ltb.
  rewrite !orb_true_iff, !andb_true_iff, !orb_true_iff, !andb_true_iff,
    !Nat.ltb_lt, !Nat.eqb_eq.
  tauto.
Qed.

Lemma date_leb_le (a b : date) :
  date_leb a b = true ↔
  (year a < year b
   ∨ (year a = year b ∧ (month a < month b ∨ (month a = month b ∧ day a ≤ day b))))%nat.
Proof.
  unfold date_leb. rewrite negb_true_iff, <- not_true_iff_false, date_ltb_lt. lia.
Qed.




End DateWindow.



(* ================================================================== *)
(** * Reasoning about statements *)
(* ================================================================== *)

Global Arguments to_csv : simpl never.
Global Arguments db_select : simpl never.
Global Arguments landing_path : simpl never.
Global Arguments transform_path : simpl never.
Global Arguments sql_text : simpl never.
Global Arguments dbtable_of : simpl never.
Global Arguments String.append : simpl never.

Ltac py_unfold :=
  unfold mbind, mret, py_bind, py_ret, bind, ret, raise, lift, gets, modify, log,
    try_except, try_finally, extern, fresh_id, w_fault in *.

(** Positions in the run, written as the position at the start plus a
    number. *)
Ltac positions :=
  unfold after_calls in *; cbn [w_oracle w_trace with_trace with_log with_s3 with_next_id] in *;
  rewrite ?length_app in *; cbn [length] in *;
  rewrite <- ?Nat.add_assoc in *; cbn [Nat.add] in *.

Section Statements.
Context {A B : Type}.

Lemma bind_returned (m : Py A) (k : A → Py B) w a :
  (m w).1 = Returned a → (m ≫= k) w = k a (m w).2.
Proof. py_unfold. destruct (m w) as [[?|?] ?]; simpl; congruence. Qed.

Lemma bind_raised (m : Py A) (k : A → Py B) w e :
  (m w).1 = Raised e → (m ≫= k) w = (Raised e, (m w).2).
Proof. py_unfold. destruct (m w) as [[?|?] ?]; simpl; congruence. Qed.

Lemma try_except_returned (m : Py A) (h : exn → Py A) w a :
  (m w).1 = Returned a → try_except m h w = (Returned a, (m w).2).
Proof. py_unfold. destruct (m w) as [[?|?] ?]; simpl; congruence. Qed.

Lemma try_except_raised (m : Py A) (h : exn → Py A) w e :
  (m w).1 = Raised e → try_except m h w = h e (m w).2.
Proof. py_unfold. destruct (m w) as [[?|?] ?]; simpl; congruence. Qed.
End Statements.

Lemma for_each_app {A} (xs ys : list A) (body : A → Py unit) w :
  for_each (xs ++ ys) body w = (for_each xs body;; for_each ys body) w.
Proof.
  revert w. induction xs as [|x xs IH]; intros w; simpl.
  - reflexivity.
  - py_unfold. destruct (body x w) as [[[]|e] w']; [apply IH|reflexivity].
Qed.

Lemma with_trace_app (evs1 evs2 : list event) (w : World) :
  with_trace (λ t, t ++ evs2) (with_trace (λ t, t ++ evs1) w)
  = with_trace (λ t, t ++ evs1 ++ evs2) w.
Proof. unfold with_trace. cbn. by rewrite <- app_assoc. Qed.

Lemma w_log_logged rs w : w_log (logged rs w) = w_log w ++ rs.
Proof.
  revert w. induction rs as [|r rs IH]; intros w; simpl.
  - by rewrite app_nil_r.
  - rewrite IH. simpl. by rewrite <- app_assoc.
Qed.

Lemma logged_same rs w :
  w_trace (logged rs w) = w_trace w ∧ w_s3 (logged rs w) = w_s3 w
  ∧ w_db (logged rs w) = w_db w ∧ w_oracle (logged rs w) = w_oracle w.
Proof.
  revert w. induction rs as [|r rs IH]; intros w; simpl; [done|].
  destruct (IH (with_log (λ l, l ++ [r]) w)) as (E1 & E2 & E3 & E4).
  by rewrite E1, E2, E3, E4.
Qed.

(* ================================================================== *)
(** * The extractor *)
(* ================================================================== *)

Section Extractor.
Context `{Engine}.
Variable year_month : string.
Variables (spark : SparkSession) (props : AuroraProperties).

(** The [try] block never gets past its [with] statement: it raises
    after the query call, with nothing stored.  When the query itself
    went through, the error is that of the [with] statement. *)
Lemma extract_try_raises table s e w :
  ∃ err w',
    extract_try year_month spark props table s e w = (Raised err, w')
    ∧ w_trace w' = w_trace w ++ [query_call props table s e]
    ∧ w_s3 w' = w_s3 w
    ∧ w_log w'
      = w_log w ++ [LogInfo ("Starting data extraction process for table: " +:+ table)]
    ∧ (w_fault w (query_call props table s e) = None →
       (∃ t, w_db w !! table = Some t ∧ "date_column" ∈ db_columns t) →
       err = not_a_context_manager).
Proof.
  unfold extract_try, spark_read_jdbc, with_enter, query_call, dbtable_of.
  py_unfold. cbn.
  destruct (w_oracle w _ _) as [e0|]; cbn.
  { eexists _, _. by split_and!. }
  destruct (w_db w !! table) as [t|] eqn:Ht; cbn.
  - case_bool_decide; cbn.
    + eexists _, _. by split_and!.
    + eexists _, _. split_and!; try done. intros _ (t' & [= <-] & Hcol). done.
  - eexists _, _. split_and!; try done. by intros _ (t' & [=] & _).
Qed.

(** The function around the [try] block: [except] and [finally]. *)
Lemma extract_monthly_data_raised table s e w err :
  (extract_try year_month spark props table s e w).1 = Raised err →
  extract_monthly_data year_month spark props table s e w
  = (Raised err,
     logged [LogError ("An error occurred during data extraction for table: " +:+ table);
             LogException err;
             LogInfo ("Data extraction process completed for table: " +:+ table)]
            (extract_try year_month spark props table s e w).2).
Proof.
  intros Hr. unfold extract_monthly_data, try_finally.
  by rewrite (try_except_raised _ _ _ _ Hr).
Qed.

(** Every call of the extractor: it raises, having made the query call
    and logged start, error, exception and completion. *)
Lemma extract_monthly_data_raises table s e w :
  let r := extract_monthly_data year_month spark props table s e w in
  ∃ err,
    r.1 = Raised err
    ∧ w_trace r.2 = w_trace w ++ [query_call props table s e]
    ∧ w_s3 r.2 = w_s3 w
    ∧ w_log r.2 = w_log w ++ failed_extraction_log table err
    ∧ (w_fault w (query_call props table s e) = None →
       (∃ t, w_db w !! table = Some t ∧ "date_column" ∈ db_columns t) →
       err = not_a_context_manager).
Proof.
  cbn zeta.
  destruct (extract_try_raises table s e w) as (err & w' & Htry & Htr & Hs3 & Hlog & Herr).
  exists err.
  rewrite (extract_monthly_data_raised _ _ _ _ err) by (by rewrite Htry).
  rewrite Htry. cbn [fst snd]. rewrite w_log_logged.
  destruct (logged_same
      [LogError ("An error occurred during data extraction for table: " +:+ table);
       LogException err;
       LogInfo ("Data extraction process completed for table: " +:+ table)] w')
    as (-> & -> & _).
  rewrite Htr, Hs3, Hlog, <- app_assoc. done.
Qed.
End Extractor.

Lemma written_paths_app evs1 evs2 :
  written_paths (evs1 ++ evs2) = written_paths evs1 ++ written_paths evs2.
Proof. unfold written_paths. apply omap_app. Qed.

(** C4, as the code runs — the extractor never writes.  The write of
    line 72 is inside the [with] statement of lines 59-66, whose
    expression is a [DataFrame]: entering it raises.  So every call
    raises after its query, the error is logged with the table name and
    raised again, and storage is as it was before the call, at
    [{base}/bronze/{table}/{year_month}/{table}_monthly_data_extract.csv]
    as everywhere else. *)
Theorem extraction_never_writes `{Engine} (year_month : string)
    (spark : SparkSession) (props : AuroraProperties) (table : string)
    (s e : date) (w : World) :
  let path := "s3a://banking_data/bronze/" +:+ table +:+ "/" +:+ year_month +:+ "/"
              +:+ table +:+ "_monthly_data_extract.csv" in
  let r := extract_monthly_data year_month spark props table s e w in
  (* the call raises; when the query went through, the error is that of
     the with statement *)
  (∃ err, r.1 = Raised err
          ∧ w_log r.2 = w_log w ++ failed_extraction_log table err
          ∧ (w_fault w (query_call props table s e) = None →
             (∃ t, w_db w !! table = Some t ∧ "date_column" ∈ db_columns t) →
             err = not_a_context_manager))
  (* the query is the only call: no write is attempted *)
  ∧ w_trace r.2 = w_trace w ++ [query_call props table s e]
  ∧ written_paths (w_trace r.2) = written_paths (w_trace w)
  (* storage is as it was *)
  ∧ w_s3 r.2 = w_s3 w
  ∧ w_s3 r.2 !! path = w_s3 w !! path
  ∧ path = landing_path year_month table.
Proof.
  cbn zeta.
  destruct (extract_monthly_data_raises year_month spark props table s e w)
    as (err & Hr & Htr & Hs3 & Hlog & Herr).
  split; [by exists err|].
  rewrite Htr, Hs3, written_paths_app. cbn. by rewrite app_nil_r.
Qed.

(** The sample call: the source has the table, the query goes through,
    and the landing object does not exist afterwards. *)
Example extraction_on_sample_world :
  let r := extract_monthly_data "202611" Session sample_props "Loan"
             (Date 2026 11 1) (Date 2026 11 30) sample_world in
  r.1 = Raised not_a_context_manager
  ∧ w_s3 r.2 !! "s3a://banking_data/bronze/Loan/202611/Loan_monthly_data_extract.csv"
    = None.
Proof. vm_compute. done. Qed.


(** The sample table extracted for November 2026 and for January 2020:
    two different queries, no write. *)
Example two_windows_on_sample_world :
  let r1 := extract_monthly_data "202611" Session sample_props "Loan"
              (Date 2026 11 1) (Date 2026 11 30) sample_world in
  let r2 := extract_monthly_data "202611" Session sample_props "Loan"
              (Date 2020 1 1) (Date 2020 1 31) sample_world in
  w_trace r1.2 ≠ w_trace r2.2
  ∧ written_paths (w_trace r1.2) = [] ∧ written_paths (w_trace r2.2) = []
  ∧ w_s3 r1.2 = ∅ ∧ w_s3 r2.2 = ∅.
Proof. vm_compute. split_and!; try done. Qed.

(** C5 — when the [try] block of the extractor raises for a table, the
    extractor logs the error with the table name, logs the exception and
    raises it again to the driver; the driver's loop stops there, so the
    world it leaves is the one the failed extraction left: no call is
    made for any later table. *)
Theorem extraction_error_logged_and_aborts `{Engine} (year_month : string)
    (spark : SparkSession) (props : AuroraProperties)
    (before : list string) (table : string) (later : list string)
    (s e : date) (w : World) (err : exn) :
  (extract_all year_month spark props before s e w).1 = Returned tt →
  let w1 := (extract_all year_month spark props before s e w).2 in
  (extract_try year_month spark props table s e w1).1 = Raised err →
  let w2 := (extract_try year_month spark props table s e w1).2 in
  let w3 := logged [LogError ("An error occurred during data extraction for table: "
                              +:+ table);
                    LogException err;
                    LogInfo ("Data extraction process completed for table: " +:+ table)]
                   w2 in
  extract_monthly_data year_month spark props table s e w1 = (Raised err, w3)
  ∧ extract_all year_month spark props (before ++ table :: later) s e w = (Raised err, w3)
  ∧ w_trace w3 = w_trace w2 ∧ w_s3 w3 = w_s3 w2.
Proof.
  intros Hbefore w1 Hbody w2 w3.
  pose proof (extract_monthly_data_raised _ _ _ _ _ _ _ _ Hbody) as Hx.
  fold w1 w2 w3 in Hx. split; [exact Hx|]. split.
  - unfold extract_all. rewrite for_each_app.
    rewrite (bind_returned _ _ _ _ Hbefore). fold (extract_all year_month spark props before s e w). fold w1.
    cbn [for_each].
    rewrite (bind_raised _ _ _ err); by rewrite Hx.
  - subst w3. by destruct (logged_same
      [LogError ("An error occurred during data extraction for table: " +:+ table);
       LogException err;
       LogInfo ("Data extraction process completed for table: " +:+ table)] w2)
      as (-> & -> & _).
Qed.

Lemma extraction_error_logged_and_aborts_witness :
  (extract_all "202611" Session sample_props ["Loan"; "Branch"; "Client"]
     (Date 2026 11 1) (Date 2026 11 30) faulty_world).1
  = Raised (ExternalError "Communications link failure").
Proof.
  assert (H1 : (extract_all "202611" Session sample_props []
                  (Date 2026 11 1) (Date 2026 11 30) faulty_world).1 = Returned tt)
    by reflexivity.
  assert (H2 : (extract_try "202611" Session sample_props "Loan"
                  (Date 2026 11 1) (Date 2026 11 30)
                  (extract_all "202611" Session sample_props []
                     (Date 2026 11 1) (Date 2026 11 30) faulty_world).2).1
               = Raised (ExternalError "Communications link failure"))
    by (vm_compute; reflexivity).
  destruct (extraction_error_logged_and_aborts "202611" Session sample_props
              [] "Loan" ["Branch"; "Client"] (Date 2026 11 1) (Date 2026 11 30)
              faulty_world (ExternalError "Communications link failure") H1 H2)
    as (_ & Hall & _).
  change (["Loan"; "Branch"; "Client"]) with ([] ++ "Loan" :: ["Branch"; "Client"]).
  by rewrite Hall.
Defined.

(* ================================================================== *)
(** * Which external calls a statement can make *)
(* ================================================================== *)

Section Emits.
Variable P : event → Prop.

Lemma emits_refl w : emits P w w.
Proof. exists []. by rewrite app_nil_r. Qed.

Lemma emits_trans w1 w2 w3 : emits P w1 w2 → emits P w2 w3 → emits P w1 w3.
Proof.
  intros (e1 & T1 & F1 & S1) (e2 & T2 & F2 & S2). exists (e1 ++ e2). split_and!.
  - by rewrite T2, T1, app_assoc.
  - by apply Forall_app.
  - intros p Hp. by rewrite S2, S1.
Qed.

Lemma emits_logged rs w : emits P w (logged rs w).
Proof.
  destruct (logged_same rs w) as (Ht & Hs & _). exists [].
  by rewrite Ht, Hs, app_nil_r.
Qed.

Lemma run_emits_ret {A} (a : A) : run_emits P (mret a).
Proof. intros w. apply emits_refl. Qed.

Lemma run_emits_raise {A} e : run_emits P (raise (A := A) e).
Proof. intros w. apply emits_refl. Qed.

Lemma run_emits_lift {A} (o : outcome A) : run_emits P (lift o).
Proof. intros w. apply emits_refl. Qed.

Lemma run_emits_gets {A} (f : World → A) : run_emits P (gets f).
Proof. intros w. apply emits_refl. Qed.

Lemma run_emits_log r : run_emits P (log r).
Proof. intros w. apply (emits_logged [r]). Qed.

Lemma run_emits_fresh_id : run_emits P fresh_id.
Proof. intros w. exists []. by rewrite app_nil_r. Qed.

Lemma run_emits_extern ev : P ev → run_emits P (extern ev).
Proof.
  intros Hev w. unfold extern.
  destruct (w_fault w ev); (exists [ev]; split_and!; [done|by constructor|done]).
Qed.

Lemma run_emits_bind {A B} (m : Py A) (k : A → Py B) :
  run_emits P m → (∀ a, run_emits P (k a)) → run_emits P (m ≫= k).
Proof.
  intros Hm Hk w. specialize (Hm w). py_unfold.
  destruct (m w) as [[a|e] w']; simpl in *; [|done].
  eapply emits_trans; [exact Hm|apply Hk].
Qed.

Lemma run_emits_raise_bind {A B} e (k : A → Py B) : run_emits P (raise e ≫= k).
Proof. intros w. apply emits_refl. Qed.

Lemma run_emits_try_except {A} (m : Py A) (h : exn → Py A) :
  run_emits P m → (∀ e, run_emits P (h e)) → run_emits P (try_except m h).
Proof.
  intros Hm Hh w. specialize (Hm w). unfold try_except.
  destruct (m w) as [[a|e] w']; simpl in *; [done|].
  eapply emits_trans; [exact Hm|apply Hh].
Qed.

Lemma run_emits_try_finally {A} (m : Py A) (fin : Py unit) :
  run_emits P m → run_emits P fin → run_emits P (try_finally m fin).
Proof.
  intros Hm Hf w. specialize (Hm w). unfold try_finally.
  destruct (m w) as [r w']. specialize (Hf w').
  destruct (fin w') as [[[]|e] w'']; simpl in *; by eapply emits_trans.
Qed.

Lemma run_emits_for_each {A} (xs : list A) (body : A → Py unit) :
  (∀ x, x ∈ xs → run_emits P (body x)) → run_emits P (for_each xs body).
Proof.
  induction xs as [|x xs IH]; intros Hb; simpl.
  - apply run_emits_ret.
  - apply run_emits_bind.
    + apply Hb. by left.
    + intros _. apply IH. intros y Hy. apply Hb. by right.
Qed.

Lemma run_emits_write `{Engine} header path df :
  P (CsvWrite path) → run_emits P (df_write_csv header path df).
Proof.
  intros Hp w. unfold df_write_csv. py_unfold. cbn.
  destruct (w_oracle w _ _); cbn.
  - exists [CsvWrite path]. split_and!; [done|by constructor|done].
  - exists [CsvWrite path]. split_and!; [done|by constructor|].
    intros p Hnp. apply lookup_insert_ne. by intros <-.
Qed.
End Emits.

Lemma emits_weaken (P Q : event → Prop) w w' :
  (∀ ev, P ev → Q ev) → emits P w w' → emits Q w w'.
Proof.
  intros HPQ (evs & Ht & Hf & Hs). exists evs. split_and!; [done| |].
  - eapply Forall_impl; eauto.
  - intros p Hq. apply Hs. intros Hp. by apply Hq, HPQ.
Qed.

Create HintDb emits.
Global Hint Resolve run_emits_ret run_emits_raise run_emits_lift run_emits_gets
  run_emits_log run_emits_fresh_id run_emits_raise_bind : emits.

Ltac emits_step :=
  first [ apply run_emits_bind; [|intros ?]
        | apply run_emits_try_except; [|intros ?]
        | apply run_emits_try_finally
        | solve [eauto with emits] ].

(* ================================================================== *)
(** * The transformer *)
(* ================================================================== *)

Section Transformer.
Context `{Engine}.
Variable year_month : string.

(** Lines 115-122 with [final_df] unbound: line 117 raises before any
    call is made. *)
Lemma write_bank_files_unbound w :
  write_bank_files year_month None w
  = (Raised (UnboundLocalError "local variable 'final_df' referenced before assignment"),
     w).
Proof. reflexivity. Qed.

Lemma spark_read_csv_emits spark glob : run_emits read_only (spark_read_csv spark glob).
Proof.
  unfold spark_read_csv. emits_step.
  - apply run_emits_extern. by exists glob.
  - emits_step; [emits_step|]. destruct a0; repeat emits_step.
Qed.

Lemma transform_try_emits spark table :
  run_emits read_only (transform_try year_month spark table).
Proof.
  unfold transform_try.
  do 5 (emits_step; [apply spark_read_csv_emits|]).
  do 2 (emits_step; [emits_step|]).
  emits_step.
  { unfold df_withColumn_to_date. repeat emits_step. }
  emits_step.
  { unfold add_avgLoanAmount, df_withColumn_avg_over. repeat emits_step. }
  intros w. rewrite write_bank_files_unbound. apply emits_refl.
Qed.

Lemma transform_try_raises spark table w :
  ∃ e, (transform_try year_month spark table w).1 = Raised e.
Proof.
  unfold transform_try.
  repeat match goal with
  | |- ∃ e, ((?m ≫= ?k) ?w).1 = Raised e =>
      let E := fresh "E" in
      destruct (m w).1 as [?|?] eqn:E;
      [rewrite (bind_returned _ _ _ _ E)|rewrite (bind_raised _ _ _ _ E); eauto]
  end.
  rewrite write_bank_files_unbound. eauto.
Qed.

Lemma transform_monthly_data_emits spark table :
  run_emits read_only (transform_monthly_data year_month spark table).
Proof.
  unfold transform_monthly_data. emits_step; [apply transform_try_emits|].
  repeat emits_step.
Qed.
End Transformer.

Lemma read_only_not_write p : ¬ read_only (CsvWrite p).
Proof. by intros [g [=]]. Qed.

(** C6 — whatever error the [try] block of the transformer raises, the
    transformer logs it and returns normally: the caller's next statement
    runs, in the world the handler left. *)
Theorem transform_swallows_errors `{Engine} (year_month : string)
    (spark : SparkSession) (table : string) (w : World) (err : exn) :
  (transform_try year_month spark table w).1 = Raised err →
  let w' := logged [LogError "An unexpected error occurred."; LogException err]
                   (transform_try year_month spark table w).2 in
  transform_monthly_data year_month spark table w = (Returned tt, w')
  ∧ ∀ next : Py unit,
      (transform_monthly_data year_month spark table;; next) w = next w'.
Proof.
  intros Hraise w'.
  assert (Hrun : transform_monthly_data year_month spark table w = (Returned tt, w')).
  { unfold transform_monthly_data. by rewrite (try_except_raised _ _ _ _ Hraise). }
  split; [exact Hrun|].
  intros next. rewrite (bind_returned _ _ _ tt); by rewrite Hrun.
Qed.

Lemma transform_swallows_errors_witness :
  (transform_try "202611" Session "Loan" sample_world).1
  = Raised (AnalysisException "Path does not exist: s3a://banking_data/bronze/Loan/*.csv")
  ∧ (transform_monthly_data "202611" Session "Loan";; extern SparkStop) sample_world
    = extern SparkStop
        (logged [LogError "An unexpected error occurred.";
                 LogException (AnalysisException
                   "Path does not exist: s3a://banking_data/bronze/Loan/*.csv")]
                (transform_try "202611" Session "Loan" sample_world).2).
Proof.
  assert (H1 : (transform_try "202611" Session "Loan" sample_world).1
               = Raised (AnalysisException
                           "Path does not exist: s3a://banking_data/bronze/Loan/*.csv"))
    by (vm_compute; reflexivity).
  split; [exact H1|].
  apply (transform_swallows_errors "202611" Session "Loan" sample_world _ H1).
Defined.

(** C2, as the code runs — what lines 115-122 do in the function as
    written: nothing is written.  The bank loop reads [final_df], which no line assigns, so
    every run of the transformer ends in its handler with storage
    untouched and without a single CSV write. *)
Theorem transform_writes_no_bank_file `{Engine} (year_month : string)
    (spark : SparkSession) (table : string) (w : World) :
  let w' := (transform_monthly_data year_month spark table w).2 in
  write_bank_files year_month None w
  = (Raised (UnboundLocalError "local variable 'final_df' referenced before assignment"), w)
  ∧ (transform_monthly_data year_month spark table w).1 = Returned tt
  ∧ w_s3 w' = w_s3 w
  ∧ written_paths (w_trace w') = written_paths (w_trace w).
Proof.
  cbn zeta. split; [reflexivity|]. split.
  - destruct (transform_try_raises year_month spark table w) as [e He].
    unfold transform_monthly_data. by rewrite (try_except_raised _ _ _ _ He).
  - destruct (transform_monthly_data_emits year_month spark table w)
      as (evs & Ht & Hf & Hs). split.
    + apply map_eq. intros p. apply Hs, read_only_not_write.
    + rewrite Ht, written_paths_app.
      assert (written_paths evs = []) as ->; [|by rewrite app_nil_r].
      clear Ht. induction Hf as [|ev evs [g ->] _ IH]; [done|exact IH].
  Qed.

(** The function on landing data with the banks A and B: it returns
    normally, the handler has logged an exception, and neither bank file
    exists afterwards. *)
Example transform_on_two_banks :
  let r := transform_monthly_data "202611" Session "Bank" two_banks_world in
  r.1 = Returned tt
  ∧ w_log r.2 = [LogError "An unexpected error occurred.";
                 LogException (AnalysisException "Reference 'date' is ambiguous")]
  ∧ w_s3 r.2 !! "s3a://banking_data/silver/A/202611/A_20261103.csv" = None
  ∧ w_s3 r.2 !! "s3a://banking_data/silver/B/202611/B_20261103.csv" = None
  ∧ written_paths (w_trace r.2) = [].
Proof. vm_compute. done. Qed.

(** Lines 115-122 started with [final_df] bound to a frame of the banks A
    and B: the loop overwrites [final_df] with the projection for A, so the
    second iteration finds no [bank_name] column; one file is written. *)
Example bank_loop_on_two_banks :
  let r := write_bank_files "202611" (Some two_banks) two_banks_world in
  r.1 = Raised (AttributeError "'DataFrame' object has no attribute 'bank_name'")
  ∧ written_paths (w_trace r.2) = ["s3a://banking_data/silver/A/202611/A_20261103.csv"]
  ∧ w_s3 r.2 !! "s3a://banking_data/silver/B/202611/B_20261103.csv" = None.
Proof. vm_compute. done. Qed.

(* ================================================================== *)
(** * The driver *)
(* ================================================================== *)

Section Driver.
Context `{Engine}.
Variable year_month : string.

Lemma create_spark_session_emits P :
  P SparkContextCreate → (∀ app, P (SessionGetOrCreate app)) →
  run_emits P create_spark_session.
Proof.
  intros H1 H2. unfold create_spark_session.
  emits_step; [|repeat emits_step].
  emits_step; [by apply run_emits_extern|].
  emits_step; [by apply run_emits_extern|]. emits_step.
Qed.

Lemma get_secrets_emits P name :
  (∀ id, P (GetSecretValue id)) → run_emits P (get_secrets name).
Proof.
  intros H1. unfold get_secrets.
  emits_step; [|repeat emits_step].
  emits_step; [by apply run_emits_extern|].
  emits_step; [emits_step|].
  destruct a0 as [[|c s]|]; [emits_step| |emits_step].
  destruct (json_loads _); emits_step.
Qed.

Lemma dict_get_emits P v key : run_emits P (dict_get v key).
Proof. intros w. destruct v; apply emits_refl. Qed.

(** The block of the [with] statement is never entered, so the query is
    the only call an extraction can make. *)
Lemma extract_monthly_data_emits P spark props table s e :
  (∀ url q, P (JdbcLoad url q)) →
  run_emits P (extract_monthly_data year_month spark props table s e).
Proof.
  intros H1. unfold extract_monthly_data.
  emits_step; [|emits_step].
  emits_step; [|repeat emits_step].
  unfold extract_try. emits_step; [emits_step|].
  emits_step.
  { unfold spark_read_jdbc. emits_step; [by apply run_emits_extern|].
    emits_step; [emits_step|].
    destruct a1; [|emits_step]. case_bool_decide; repeat emits_step. }
  unfold with_enter. apply run_emits_raise_bind.
Qed.

Lemma main_with_args_emits args :
  run_emits staging_call (main_with_args year_month args).
Proof.
  unfold main_with_args. destruct (length args <? 2)%nat; [emits_step|].
  emits_step.
  { by apply create_spark_session_emits. }
  emits_step.
  { by apply get_secrets_emits. }
  emits_step; [apply dict_get_emits|].
  destruct (negb (py_truthy _)); [emits_step|].
  do 2 (emits_step; [apply dict_get_emits|]).
  emits_step; [emits_step|].
  emits_step; [|emits_step].
  unfold extract_all. apply run_emits_for_each. intros t Ht.
  by apply extract_monthly_data_emits.
Qed.

Lemma main_stage_emits w : emits staging_call w (main_stage year_month w).2.
Proof.
  unfold main_stage. py_unfold.
  assert (Hglue : emits staging_call w (with_trace (λ t, t ++ [GlueContextCreate]) w)).
  { exists [GlueContextCreate]. split_and!; [done| |done]. by constructor. }
  destruct (w_oracle w _ GlueContextCreate); cbn; [done|].
  eapply emits_trans; [exact Hglue|].
  apply (main_with_args_emits (w_argv w)).
Qed.


(** Whatever lines 134-170 do, the [try] block of [main] raises. *)
Lemma main_try_raises w :
  ∃ err, main_try year_month w = (Raised err, (main_stage year_month w).2).
Proof.
  unfold main_try.
  destruct (main_stage year_month w).1 as [spark|err] eqn:Hs.
  - rewrite (bind_returned _ _ _ _ Hs). eexists. reflexivity.
  - rewrite (bind_raised _ _ _ _ Hs). eauto.
Qed.

(** The extraction loop over at least one table raises in its first
    iteration. *)
Lemma extract_all_raises spark props t ts s e w :
  ∃ err, (extract_all year_month spark props (t :: ts) s e w).1 = Raised err.
Proof.
  destruct (extract_monthly_data_raises year_month spark props t s e w)
    as (err & Hr & _).
  exists err. unfold extract_all. cbn [for_each].
  by rewrite (bind_raised _ _ _ _ Hr).
Qed.

(** Lines 134-170 never complete: without a table name line 137 raises,
    with one the first extraction does. *)
Lemma main_with_args_raises args w :
  ∃ err, (main_with_args year_month args w).1 = Raised err.
Proof.
  unfold main_with_args.
  destruct args as [|prog [|t ts]]; [by eexists..|].
  cbn [length Nat.ltb Nat.leb drop].
  repeat match goal with
  | |- ∃ e, ((if ?b then _ else _) ?w).1 = Raised e => destruct b; [by eexists|]
  | |- ∃ e, ((extract_all ?ym ?sp ?pr (?t :: ?ts) ?s ?e' ≫= ?k) ?w).1 = Raised e =>
      let E := fresh "E" in
      destruct (extract_all_raises sp pr t ts s e' w) as [? E];
      rewrite (bind_raised _ _ _ _ E); eauto
  | |- ∃ e, ((?m ≫= ?k) ?w).1 = Raised e =>
      let E := fresh "E" in
      destruct (m w).1 as [?|?] eqn:E;
      [rewrite (bind_returned _ _ _ _ E)|rewrite (bind_raised _ _ _ _ E); eauto]
  end.
Qed.

Lemma main_stage_raises w : ∃ err, (main_stage year_month w).1 = Raised err.
Proof.
  unfold main_stage. py_unfold.
  destruct (w_oracle w _ GlueContextCreate); cbn; [by eexists|].
  apply main_with_args_raises.
Qed.
End Driver.

(** C7 — with no table name on the command line the driver's [try]
    block raises, and the only external call made is the creation of the
    Glue context: no secret is fetched, no query is sent, nothing is read
    from or written to storage.  When the context is created, the error
    is the configuration error.  The driver's handler logs it. *)
Theorem no_table_names_is_configuration_error `{Engine} (year_month : string)
    (w : World) :
  drop 1 (w_argv w) = [] →
  let w1 := with_trace (λ t, t ++ [GlueContextCreate]) w in
  (∃ err, main_try year_month w = (Raised err, w1)
          ∧ main year_month w
            = (Returned tt,
               logged [LogError "An unexpected error occurred."; LogException err] w1)
          ∧ (w_fault w GlueContextCreate = None →
             err = ValueError "No table names provided as job parameters."))
  ∧ w_trace (main year_month w).2 = w_trace w ++ [GlueContextCreate]
  ∧ w_s3 (main year_month w).2 = w_s3 w.
Proof.
  intros Hargs w1.
  assert (Hlen : (length (w_argv w) <? 2)%nat = true).
  { apply Nat.ltb_lt. destruct (w_argv w) as [|a [|b l]]; simpl in *; [lia..|done]. }
  assert (Htry : ∃ err, main_try year_month w = (Raised err, w1)
                        ∧ (w_fault w GlueContextCreate = None →
                           err = ValueError "No table names provided as job parameters.")).
  { unfold main_try, main_stage, main_with_args. py_unfold. fold w1.
    destruct (w_oracle w _ GlueContextCreate) as [e|]; cbn -[Nat.ltb length].
    - exists e. by split.
    - rewrite Hlen. eexists. by split. }
  destruct Htry as (err & Htry & Herr).
  assert (Hmain : main year_month w
                  = (Returned tt,
                     logged [LogError "An unexpected error occurred."; LogException err] w1)).
  { unfold main. rewrite (try_except_raised _ _ _ err); by rewrite Htry. }
  split; [by exists err|].
  rewrite Hmain. cbn [snd].
  by destruct (logged_same [LogError "An unexpected error occurred."; LogException err] w1)
    as (-> & -> & _).
Qed.

Lemma no_table_names_is_configuration_error_witness :
  drop 1 (w_argv no_tables_world) = []
  ∧ w_trace (main "202611" no_tables_world).2 = [GlueContextCreate].
Proof.
  assert (H0 : drop 1 (w_argv no_tables_world) = []) by reflexivity.
  split; [exact H0|].
  apply (no_table_names_is_configuration_error "202611" no_tables_world H0).
Defined.


(** The sample run: the error the handler absorbs is that of the first
    extraction; line 173 is not reached. *)
Example sample_run_stops_in_staging :
  main_try "202611" sample_world
  = (Raised not_a_context_manager, (main_stage "202611" sample_world).2).
Proof. vm_compute. reflexivity. Qed.

(* ================================================================== *)
(** * The join *)
(* ================================================================== *)

Section Join.

Lemma resolve_returned df name a :
  resolve df name = Returned a → a ∈ df_schema df ∧ a.2 = name.
Proof.
  unfold resolve.
  destruct (filter _ (df_schema df)) as [|x [|y l]] eqn:E; intros [= <-].
  assert (Hin : x ∈ filter (λ a : attr, a.2 = name) (df_schema df))
    by (rewrite E; left).
  apply list_elem_of_filter in Hin. tauto.
Qed.

Lemma resolve_loaded id df name a :
  loaded id df → resolve df name = Returned a → a = (id, name).
Proof.
  intros [Hs _] Hr. apply resolve_returned in Hr as [Hin Hn].
  rewrite Forall_forall in Hs. specialize (Hs _ Hin).
  destruct a as [i n]. simpl in *. congruence.
Qed.

Lemma loaded_row id df r : loaded id df → r ∈ df_rows df → owned_by [id] r.
Proof. intros [_ Hr] Hin. rewrite Forall_forall in Hr. by apply Hr. Qed.

Lemma df_join_rows l r a b row :
  row ∈ df_rows (df_join l r a b) ↔
  ∃ x y, x ∈ df_rows l ∧ y ∈ df_rows r ∧ row = x ∪ y
         ∧ sql_eq ((x ∪ y) !! a) ((x ∪ y) !! b) = true.
Proof.
  unfold df_join. cbn [df_rows]. rewrite list_elem_of_bind. split.
  - intros (x & Hrow & Hx). apply list_elem_of_bind in Hrow as (y & Hrow & Hy).
    destruct (sql_eq _ _) eqn:E; [|by apply elem_of_nil in Hrow].
    apply list_elem_of_singleton in Hrow. by exists x, y.
  - intros (x & y & Hx & Hy & -> & E). exists x. split; [|done].
    apply list_elem_of_bind. exists y. split; [|done]. rewrite E. by left.
Qed.

Lemma owned_lookup_None (ids : list nat) (r : Row) (k : attr) :
  owned_by ids r → k.1 ∉ ids → r !! k = None.
Proof.
  intros Ho Hk. destruct (r !! k) eqn:E; [|done].
  exfalso. apply Hk, Ho. by rewrite E.
Qed.

Lemma owned_union (ids1 ids2 : list nat) (x y : Row) :
  owned_by ids1 x → owned_by ids2 y → owned_by (ids1 ++ ids2) (x ∪ y).
Proof.
  intros Hx Hy k [v Hv]. apply lookup_union_Some_raw in Hv as [Hv|[_ Hv]].
  - apply elem_of_app. left. apply Hx. by rewrite Hv.
  - apply elem_of_app. right. apply Hy. by rewrite Hv.
Qed.

Lemma lookup_union_owned_l (ids : list nat) (x y : Row) (k : attr) :
  owned_by ids y → k.1 ∉ ids → (x ∪ y) !! k = x !! k.
Proof. intros Hy Hk. apply lookup_union_l. by eapply owned_lookup_None. Qed.

Lemma lookup_union_owned_r (ids : list nat) (x y : Row) (k : attr) :
  owned_by ids x → k.1 ∉ ids → (x ∪ y) !! k = y !! k.
Proof. intros Hx Hk. apply lookup_union_r. by eapply owned_lookup_None. Qed.

Lemma row_part_lookup (id : nat) (r : Row) (k : attr) :
  row_part id r !! k = if decide (k.1 = id) then r !! k else None.
Proof.
  unfold row_part. rewrite map_lookup_filter.
  destruct (r !! k) as [v|] eqn:E; simpl.
  - case_decide; [by rewrite option_guard_True|by rewrite option_guard_False].
  - by case_decide.
Qed.

Lemma row_part_union (id : nat) (x y : Row) :
  row_part id (x ∪ y) = row_part id x ∪ row_part id y.
Proof.
  apply map_eq. intros k. rewrite lookup_union, !row_part_lookup.
  case_decide; [by rewrite lookup_union|done].
Qed.

Lemma row_part_owned (id : nat) (r : Row) : owned_by [id] r → row_part id r = r.
Proof.
  intros Ho. apply map_eq. intros k. rewrite row_part_lookup.
  case_decide as Hk; [done|]. symmetry. apply (owned_lookup_None [id]); [done|].
  by intros Hin%list_elem_of_singleton.
Qed.

Lemma row_part_other (id : nat) (ids : list nat) (r : Row) :
  owned_by ids r → id ∉ ids → row_part id r = ∅.
Proof.
  intros Ho Hid. apply map_eq. intros k. rewrite row_part_lookup, lookup_empty.
  case_decide as Hk; [|done]. apply (owned_lookup_None ids); [done|]. by rewrite Hk.
Qed.

Lemma foreign_None (i j : nat) (r : Row) (n : string) :
  owned_by [i] r → i ≠ j → r !! (j, n) = None.
Proof.
  intros Ho Hij. apply (owned_lookup_None [i]); [done|].
  cbn. by intros ->%list_elem_of_singleton.
Qed.
End Join.

Ltac foreign_keys :=
  repeat first
    [ rewrite lookup_union
    | match goal with
      | O : owned_by [?i] ?r |- context [?r !! (?j, ?n)] =>
          rewrite (foreign_None i j r n O) by done
      end
    | rewrite (left_id_L None (∪))
    | rewrite (right_id_L None (∪)) ].

Lemma NoDup_5 (i1 i2 i3 i4 i5 : nat) :
  NoDup [i1; i2; i3; i4; i5] →
  i1 ≠ i2 ∧ i1 ≠ i3 ∧ i1 ≠ i4 ∧ i1 ≠ i5 ∧ i2 ≠ i3 ∧ i2 ≠ i4 ∧ i2 ≠ i5
  ∧ i3 ≠ i4 ∧ i3 ≠ i5 ∧ i4 ≠ i5.
Proof.
  intros H. repeat (apply NoDup_cons in H as [? H]). set_solver.
Qed.

Lemma join_tables_rows
    (df1 df2 df3 df4 df5 : DataFrame) (i1 i2 i3 i4 i5 : nat) (j : DataFrame) :
  loaded i1 df1 → loaded i2 df2 → loaded i3 df3 → loaded i4 df4 → loaded i5 df5 →
  NoDup [i1; i2; i3; i4; i5] →
  join_tables df1 df2 df3 df4 df5 = Returned j →
  ∀ row, row ∈ df_rows j ↔
    ∃ r1 r2 r3 r4 r5,
      r1 ∈ df_rows df1 ∧ r2 ∈ df_rows df2 ∧ r3 ∈ df_rows df3
      ∧ r4 ∈ df_rows df4 ∧ r5 ∈ df_rows df5
      ∧ key_match r1 (i1, "idBank") r2 (i2, "Bank_idBank")
      ∧ key_match r1 (i1, "idBranch") r3 (i3, "Branch_idBranch")
      ∧ key_match r1 (i1, "idClient") r4 (i4, "Client_idClient")
      ∧ key_match r1 (i1, "idAccount") r5 (i5, "Account_idAccount")
      ∧ row = r1 ∪ r2 ∪ r3 ∪ r4 ∪ r5.
Proof.
  intros L1 L2 L3 L4 L5 Hnd Hj.
  destruct (NoDup_5 _ _ _ _ _ Hnd) as (?&?&?&?&?&?&?&?&?&?).
  unfold join_tables in Hj.
  repeat match type of Hj with
  | context [resolve ?d ?n] =>
      let R := fresh "R" in
      destruct (resolve d n) as [?|?] eqn:R; cbn in Hj; [|discriminate]
  end.
  repeat match goal with
  | L : loaded ?i ?d, R : resolve ?d _ = Returned _ |- _ =>
      apply (resolve_loaded _ _ _ _ L) in R; subst
  end.
  injection Hj as <-.
  intros row. unfold key_match. split.
  - intros Hrow.
    apply df_join_rows in Hrow as (x4 & r5 & Hx4 & Hr5 & -> & E4).
    apply df_join_rows in Hx4 as (x3 & r4 & Hx3 & Hr4 & -> & E3).
    apply df_join_rows in Hx3 as (x2 & r3 & Hx2 & Hr3 & -> & E2).
    apply df_join_rows in Hx2 as (r1 & r2 & Hr1 & Hr2 & -> & E1).
    pose proof (loaded_row _ _ _ L1 Hr1). pose proof (loaded_row _ _ _ L2 Hr2).
    pose proof (loaded_row _ _ _ L3 Hr3). pose proof (loaded_row _ _ _ L4 Hr4).
    pose proof (loaded_row _ _ _ L5 Hr5).
    exists r1, r2, r3, r4, r5. split_and!; try done.
    + revert E1. by foreign_keys.
    + revert E2. by foreign_keys.
    + revert E3. by foreign_keys.
    + revert E4. by foreign_keys.
  - intros (r1 & r2 & r3 & r4 & r5 & Hr1 & Hr2 & Hr3 & Hr4 & Hr5 & E1 & E2 & E3 & E4 & ->).
    pose proof (loaded_row _ _ _ L1 Hr1). pose proof (loaded_row _ _ _ L2 Hr2).
    pose proof (loaded_row _ _ _ L3 Hr3). pose proof (loaded_row _ _ _ L4 Hr4).
    pose proof (loaded_row _ _ _ L5 Hr5).
    apply df_join_rows. exists (r1 ∪ r2 ∪ r3 ∪ r4), r5. split_and!; try done.
    2:{ by foreign_keys. }
    apply df_join_rows. exists (r1 ∪ r2 ∪ r3), r4. split_and!; try done.
    2:{ by foreign_keys. }
    apply df_join_rows. exists (r1 ∪ r2), r3. split_and!; try done.
    2:{ by foreign_keys. }
    apply df_join_rows. exists r1, r2. split_and!; try done.
    by foreign_keys.
Qed.

Lemma row_part_foreign (i j : nat) (r : Row) :
  owned_by [i] r → i ≠ j → row_part j r = ∅.
Proof.
  intros Ho Hij. apply (row_part_other j [i]); [done|].
  by intros ->%list_elem_of_singleton.
Qed.

Ltac parts :=
  repeat first
    [ rewrite row_part_union
    | match goal with
      | O : owned_by [?i] ?r |- context [row_part ?i ?r] =>
          rewrite (row_part_owned i r O)
      | O : owned_by [?i] ?r |- context [row_part ?j ?r] =>
          rewrite (row_part_foreign i j r O) by done
      end
    | rewrite (left_id_L ∅ (∪))
    | rewrite (right_id_L ∅ (∪)) ].

Lemma join_parts (r1 r2 r3 r4 r5 : Row) (i1 i2 i3 i4 i5 : nat) :
  owned_by [i1] r1 → owned_by [i2] r2 → owned_by [i3] r3 → owned_by [i4] r4 →
  owned_by [i5] r5 → NoDup [i1; i2; i3; i4; i5] →
  let row := r1 ∪ r2 ∪ r3 ∪ r4 ∪ r5 in
  row_part i1 row = r1 ∧ row_part i2 row = r2 ∧ row_part i3 row = r3
  ∧ row_part i4 row = r4 ∧ row_part i5 row = r5.
Proof.
  intros O1 O2 O3 O4 O5 Hnd.
  destruct (NoDup_5 _ _ _ _ _ Hnd) as (?&?&?&?&?&?&?&?&?&?).
  cbn zeta. split_and!; by parts.
Qed.

(** C8 — the join of lines 97-100 is the inner join on the four key
    equalities: its rows are exactly the combinations of one record per
    table with [idBank = Bank_idBank], [idBranch = Branch_idBranch],
    [idClient = Client_idClient] and [idAccount = Account_idAccount] (nulls
    never match); each joined row is made of such records, and a record
    with no match under one of its equalities is part of no joined row. *)
Theorem inner_join_on_four_keys
    (df1 df2 df3 df4 df5 : DataFrame) (i1 i2 i3 i4 i5 : nat) :
  loaded i1 df1 → loaded i2 df2 → loaded i3 df3 → loaded i4 df4 → loaded i5 df5 →
  NoDup [i1; i2; i3; i4; i5] →
  (* the eight key columns exist, each once in its frame *)
  resolve df1 "idBank" = Returned (i1, "idBank") →
  resolve df2 "Bank_idBank" = Returned (i2, "Bank_idBank") →
  resolve df1 "idBranch" = Returned (i1, "idBranch") →
  resolve df3 "Branch_idBranch" = Returned (i3, "Branch_idBranch") →
  resolve df1 "idClient" = Returned (i1, "idClient") →
  resolve df4 "Client_idClient" = Returned (i4, "Client_idClient") →
  resolve df1 "idAccount" = Returned (i1, "idAccount") →
  resolve df5 "Account_idAccount" = Returned (i5, "Account_idAccount") →
  let k_bank r1 r2 := key_match r1 (i1, "idBank") r2 (i2, "Bank_idBank") in
  let k_branch r1 r3 := key_match r1 (i1, "idBranch") r3 (i3, "Branch_idBranch") in
  let k_client r1 r4 := key_match r1 (i1, "idClient") r4 (i4, "Client_idClient") in
  let k_account r1 r5 := key_match r1 (i1, "idAccount") r5 (i5, "Account_idAccount") in
  ∃ j, join_tables df1 df2 df3 df4 df5 = Returned j ∧
  (* the joined rows are exactly the combinations that satisfy the four equalities *)
  (∀ row, row ∈ df_rows j ↔
     ∃ r1 r2 r3 r4 r5,
       r1 ∈ df_rows df1 ∧ r2 ∈ df_rows df2 ∧ r3 ∈ df_rows df3
       ∧ r4 ∈ df_rows df4 ∧ r5 ∈ df_rows df5
       ∧ k_bank r1 r2 ∧ k_branch r1 r3 ∧ k_client r1 r4 ∧ k_account r1 r5
       ∧ row = r1 ∪ r2 ∪ r3 ∪ r4 ∪ r5)
  (* every joined row is made of one record of each table, with matching keys *)
  ∧ (∀ row, row ∈ df_rows j →
       row_part i1 row ∈ df_rows df1 ∧ row_part i2 row ∈ df_rows df2
       ∧ row_part i3 row ∈ df_rows df3 ∧ row_part i4 row ∈ df_rows df4
       ∧ row_part i5 row ∈ df_rows df5
       ∧ k_bank (row_part i1 row) (row_part i2 row)
       ∧ k_branch (row_part i1 row) (row_part i3 row)
       ∧ k_client (row_part i1 row) (row_part i4 row)
       ∧ k_account (row_part i1 row) (row_part i5 row))
  (* a record without a match is part of no joined row *)
  ∧ (∀ r1, (∀ r2, r2 ∈ df_rows df2 → ¬ k_bank r1 r2)
           ∨ (∀ r3, r3 ∈ df_rows df3 → ¬ k_branch r1 r3)
           ∨ (∀ r4, r4 ∈ df_rows df4 → ¬ k_client r1 r4)
           ∨ (∀ r5, r5 ∈ df_rows df5 → ¬ k_account r1 r5) →
           ∀ row, row ∈ df_rows j → row_part i1 row ≠ r1)
  ∧ (∀ r2, (∀ r1, r1 ∈ df_rows df1 → ¬ k_bank r1 r2) →
           ∀ row, row ∈ df_rows j → row_part i2 row ≠ r2)
  ∧ (∀ r3, (∀ r1, r1 ∈ df_rows df1 → ¬ k_branch r1 r3) →
           ∀ row, row ∈ df_rows j → row_part i3 row ≠ r3)
  ∧ (∀ r4, (∀ r1, r1 ∈ df_rows df1 → ¬ k_client r1 r4) →
           ∀ row, row ∈ df_rows j → row_part i4 row ≠ r4)
  ∧ (∀ r5, (∀ r1, r1 ∈ df_rows df1 → ¬ k_account r1 r5) →
           ∀ row, row ∈ df_rows j → row_part i5 row ≠ r5).
Proof.
  intros L1 L2 L3 L4 L5 Hnd R1 R2 R3 R4 R5 R6 R7 R8. cbn zeta.
  destruct (join_tables df1 df2 df3 df4 df5) as [j|e] eqn:Hj; cycle 1.
  { unfold join_tables in Hj. rewrite R1, R2, R3, R4, R5, R6, R7, R8 in Hj.
    discriminate. }
  exists j. split; [reflexivity|].
  pose proof (join_tables_rows _ _ _ _ _ _ _ _ _ _ _ L1 L2 L3 L4 L5 Hnd Hj) as Hrows.
  assert (Hparts : ∀ row, row ∈ df_rows j →
            row_part i1 row ∈ df_rows df1 ∧ row_part i2 row ∈ df_rows df2
            ∧ row_part i3 row ∈ df_rows df3 ∧ row_part i4 row ∈ df_rows df4
            ∧ row_part i5 row ∈ df_rows df5
            ∧ key_match (row_part i1 row) (i1, "idBank") (row_part i2 row) (i2, "Bank_idBank")
            ∧ key_match (row_part i1 row) (i1, "idBranch") (row_part i3 row) (i3, "Branch_idBranch")
            ∧ key_match (row_part i1 row) (i1, "idClient") (row_part i4 row) (i4, "Client_idClient")
            ∧ key_match (row_part i1 row) (i1, "idAccount") (row_part i5 row) (i5, "Account_idAccount")).
  { intros row Hrow.
    apply Hrows in Hrow
      as (r1 & r2 & r3 & r4 & r5 & Hr1 & Hr2 & Hr3 & Hr4 & Hr5 & E1 & E2 & E3 & E4 & ->).
    destruct (join_parts r1 r2 r3 r4 r5 i1 i2 i3 i4 i5) as (-> & -> & -> & -> & ->);
      eauto using loaded_row.
    by split_and!. }
  split; [exact Hrows|]. split; [exact Hparts|].
  split_and!.
  - intros r1 Hno row Hrow <-.
    destruct (Hparts row Hrow) as (_ & H2 & H3 & H4 & H5 & K1 & K2 & K3 & K4).
    destruct Hno as [Hno|[Hno|[Hno|Hno]]]; eapply Hno; eauto.
  - intros r2 Hno row Hrow <-.
    destruct (Hparts row Hrow) as (H1 & _ & _ & _ & _ & K1 & _). by eapply Hno.
  - intros r3 Hno row Hrow <-.
    destruct (Hparts row Hrow) as (H1 & _ & _ & _ & _ & _ & K2 & _). by eapply Hno.
  - intros r4 Hno row Hrow <-.
    destruct (Hparts row Hrow) as (H1 & _ & _ & _ & _ & _ & _ & K3 & _). by eapply Hno.
  - intros r5 Hno row Hrow <-.
    destruct (Hparts row Hrow) as (H1 & _ & _ & _ & _ & _ & _ & _ & K4). by eapply Hno.
Qed.

(** What one CSV read yields is a loaded frame. *)
Lemma from_csv_loaded (id : nat) (files : list CsvFile) : loaded id (from_csv id files).
Proof.
  unfold loaded, from_csv. cbn [df_schema df_rows]. split.
  - apply Forall_forall. intros a Ha. apply list_elem_of_fmap in Ha as (n & -> & _). done.
  - apply Forall_forall. intros r Hr. apply list_elem_of_fmap in Hr as (line & -> & _).
    intros k [v Hv]. unfold row_of_fields in Hv.
    apply elem_of_list_to_map_2 in Hv. apply list_elem_of_omap in Hv as ([n f] & _ & Hf).
    cbn in Hf. case_bool_decide; [discriminate|]. injection Hf as <- _.
    cbn. by left.
Qed.

Lemma spark_read_csv_loaded (spark : SparkSession) (glob : string) (w : World)
    (df : DataFrame) :
  (spark_read_csv spark glob w).1 = Returned df →
  loaded (w_next_id w) df ∧ w_next_id (spark_read_csv spark glob w).2 = S (w_next_id w).
Proof.
  unfold spark_read_csv. py_unfold. cbn.
  destruct (w_oracle w _ (CsvRead glob)); [discriminate|]. cbn.
  destruct (map_to_list _).*2 as [|f fs]; cbn; [discriminate|].
  intros [= <-]. split; [apply from_csv_loaded|done].
Qed.

Lemma inner_join_on_four_keys_witness :
  let df k := from_csv k [orphan_csv] in
  length (df_rows (df 0)) = 3
  ∧ ∃ j, join_tables (df 0) (df 1) (df 2) (df 3) (df 4) = Returned j
         ∧ length (df_rows j) = 2
         ∧ ∀ row, row ∈ df_rows j → row_part 0 row ∈ df_rows (df 0).
Proof.
  intros df. split; [reflexivity|].
  assert (Hnd : NoDup [0; 1; 2; 3; 4]).
  { repeat (apply NoDup_cons_2;
            [rewrite ?elem_of_cons, elem_of_nil; intros Hin; decompose [or] Hin; lia|]).
    apply NoDup_nil_2. }
  destruct (inner_join_on_four_keys (df 0) (df 1) (df 2) (df 3) (df 4) 0 1 2 3 4
              (from_csv_loaded 0 _) (from_csv_loaded 1 _) (from_csv_loaded 2 _)
              (from_csv_loaded 3 _) (from_csv_loaded 4 _) Hnd
              eq_refl eq_refl eq_refl eq_refl eq_refl eq_refl eq_refl eq_refl)
    as (j & Hj & _ & Hparts & _).
  exists j. split; [exact Hj|]. split.
  - assert (Hlen : (match join_tables (df 0) (df 1) (df 2) (df 3) (df 4) with
                    | Returned j => length (df_rows j)
                    | Raised _ => 0
                    end = 2)%nat) by (vm_compute; reflexivity).
    by rewrite Hj in Hlen.
  - intros row Hrow. by destruct (Hparts row Hrow) as (H1 & _).
Defined.

(* ================================================================== *)
(** * The moving average *)
(* ================================================================== *)

Section Window.
Context `{Engine}.

(** ** Frames *)
Lemma frame_first (part : list Row) (r : Row) :
  part !! 0%nat = Some r → frame (-2) 0 part 0 = [r].
Proof. destruct part as [|x l]; intros [= ->]. unfold frame. simpl. by rewrite take_0. Qed.

Lemma frame_second (part : list Row) (p r : Row) :
  part !! 0%nat = Some p → part !! 1%nat = Some r → frame (-2) 0 part 1 = [p; r].
Proof.
  destruct part as [|x [|y l]]; intros [= ->] [= ->]. unfold frame. simpl.
  by rewrite take_0.
Qed.

Lemma drop_take_three (l : list Row) (k : nat) (p q r : Row) :
  l !! k = Some p → l !! S k = Some q → l !! S (S k) = Some r →
  drop k (take (S (S (S k))) l) = [p; q; r].
Proof.
  revert l. induction k as [|k IH]; intros l Hp Hq Hr.
  - destruct l as [|x [|y [|z l]]]; simplify_eq/=. by rewrite take_0.
  - destruct l as [|x l]; [done|]. simpl in *. by apply IH.
Qed.

Lemma frame_third (part : list Row) (k : nat) (p q r : Row) :
  part !! k = Some p → part !! S k = Some q → part !! S (S k) = Some r →
  frame (-2) 0 part (S (S k)) = [p; q; r].
Proof.
  intros Hp Hq Hr. unfold frame.
  replace (Z.to_nat (Z.of_nat (S (S k)) + -2)) with k by lia.
  replace (Z.to_nat (Z.of_nat (S (S k)) + 0 + 1)) with (S (S (S k))) by lia.
  by apply drop_take_three.
Qed.

(** ** The average *)
Lemma Qc_of_nat_1 : Qc_of_nat 1 = Q2Qc 1.
Proof. by apply Qc_is_canon. Qed.

Lemma sql_avg_one (x : option Qc) : sql_avg [x] = x.
Proof.
  destruct x as [q|]; [|done]. unfold sql_avg. cbn.
  rewrite Qc_of_nat_1. f_equal. rewrite Qcplus_0_l. apply (right_id 1%Qc Qcdiv).
Qed.

Lemma sql_avg_two (a b : Qc) :
  sql_avg [Some a; Some b] = Some ((a + b) / Qc_of_nat 2)%Qc.
Proof. unfold sql_avg. cbn. by rewrite Qcplus_0_l. Qed.

Lemma sql_avg_three (a b c : Qc) :
  sql_avg [Some a; Some b; Some c] = Some ((a + b + c) / Qc_of_nat 3)%Qc.
Proof. unfold sql_avg. cbn. by rewrite Qcplus_0_l. Qed.

(** ** Cells of the new column *)
Lemma put_cell_new (new : attr) (v : option cell) (r : Row) : put_cell new v r !! new = v.
Proof.
  unfold put_cell. destruct v as [c|].
  - apply lookup_insert_eq.
  - apply map_lookup_filter_None. right. intros x _. cbn. by intros Hne.
Qed.

Lemma put_cell_other (new a : attr) (v : option cell) (r : Row) :
  a.2 ≠ new.2 → put_cell new v r !! a = r !! a.
Proof.
  intros Hne. unfold put_cell.
  assert (Hkept : filter (λ kv : attr * cell, kv.1.2 ≠ new.2) r !! a = r !! a).
  { rewrite map_lookup_filter. destruct (r !! a); [|done]. cbn.
    by rewrite option_guard_True. }
  destruct v as [c|]; [|done].
  rewrite lookup_insert_ne; [done|]. by intros <-.
Qed.

Lemma annotate_trailing (new va : attr) (part : list Row) :
  trailing_three_averages (λ r, cell_double (r !! va)) new part
    (imap (λ i r, put_cell new (VDouble <$> avg_over va (-2) 0 part i) r) part).
Proof.
  unfold trailing_three_averages. split_and!.
  - apply length_imap.
  - intros i r Hr. rewrite list_lookup_imap, Hr. cbn. eexists. split; [done|].
    intros a Ha. by apply put_cell_other.
  - intros r Hr. rewrite list_lookup_imap, Hr. cbn. eexists. split; [done|].
    rewrite put_cell_new. unfold avg_over. rewrite (frame_first _ _ Hr). cbn [map].
    by rewrite sql_avg_one.
  - intros p r Hp Hr. rewrite list_lookup_imap, Hr. cbn. eexists. split; [done|].
    rewrite put_cell_new. unfold avg_over. by rewrite (frame_second _ _ _ Hp Hr).
  - intros k p q r Hp Hq Hr. rewrite list_lookup_imap, Hr. cbn. eexists. split; [done|].
    rewrite put_cell_new. unfold avg_over. by rewrite (frame_third _ _ _ _ _ Hp Hq Hr).
Qed.
End Window.

(** ** Partitions *)
Section Partition.
Context {A K : Type} `{EqDecision K} (key : A → K).

Lemma filter_split_key (k : K) (ks : list K) (l : list A) :
  k ∉ ks →
  filter (λ x, key x ∈ k :: ks) l
  ≡ₚ filter (λ x, key x = k) l ++ filter (λ x, key x ∈ ks) l.
Proof.
  intros Hk. induction l as [|x l IH]; [done|].
  rewrite !filter_cons.
  destruct (decide (key x = k)) as [E|E].
  - rewrite decide_True by (rewrite E; left).
    rewrite (decide_False (P := key x ∈ ks)) by (by rewrite E).
    cbn. by rewrite IH.
  - destruct (decide (key x ∈ ks)) as [I|I].
    + rewrite decide_True by (by right).
      rewrite IH. apply Permutation_middle.
    + rewrite decide_False; [done|]. intros [?|?]%elem_of_cons; done.
Qed.

Lemma group_by_key_perm (ks : list K) (l : list A) :
  NoDup ks →
  concat (map (λ k, filter (λ x, key x = k) l) ks) ≡ₚ filter (λ x, key x ∈ ks) l.
Proof.
  induction 1 as [|k ks Hk Hnd IH]; cbn.
  - symmetry. apply Permutation_nil_r. induction l as [|x l IHl]; [done|].
    rewrite filter_cons. rewrite decide_False; [done|]. apply not_elem_of_nil.
  - by rewrite IH, filter_split_key.
Qed.

Lemma groups_cover (l : list A) :
  concat (map (λ k, filter (λ x, key x = k) l) (remove_dups (map key l))) ≡ₚ l.
Proof.
  rewrite group_by_key_perm by apply NoDup_remove_dups.
  assert (Hall : filter (λ x, key x ∈ remove_dups (map key l)) l = l); [|by rewrite Hall].
  assert (Hin : ∀ x, x ∈ l → key x ∈ remove_dups (map key l)).
  { intros x Hx. apply elem_of_remove_dups, list_elem_of_fmap. eauto. }
  revert Hin. generalize (remove_dups (map key l)). intros ks.
  induction l as [|x l IH]; intros Hin; [done|].
  rewrite filter_cons, decide_True by (apply Hin; left).
  f_equal. apply IH. intros y Hy. apply Hin. by right.
Qed.
End Partition.

Lemma concat_fmap_perm {A} (f : list A → list A) (ls : list (list A)) :
  (∀ l, f l ≡ₚ l) → concat (f <$> ls) ≡ₚ concat ls.
Proof.
  intros Hf. induction ls as [|l ls IH]; [done|]. cbn. by rewrite Hf, IH.
Qed.

(** ** Order *)
Lemma date_leb_total (a b : date) : date_leb a b = true ∨ date_leb b a = true.
Proof. rewrite !date_leb_le. lia. Qed.

Lemma cell_leb_total (x y : option cell) : cell_leb x y = true ∨ cell_leb y x = true.
Proof.
  destruct x as [[a|a|a]|], y as [[b|b|b]|]; cbn; auto.
  - apply String.leb_total.
  - apply date_leb_total.
  - destruct (Qclt_le_dec a b) as [Hlt|Hle].
    + left. apply bool_decide_eq_true_2. by apply Qclt_le_weak.
    + right. by apply bool_decide_eq_true_2.
Qed.

Global Instance row_le_total (a : attr) : Total (row_le a).
Proof.
  intros x y. unfold row_le.
  destruct (cell_leb_total (x !! a) (y !! a)) as [-> | ->]; [by left|by right].
Qed.

Lemma list_bind_concat {A B} (f : A → list B) (l : list A) : l ≫= f = concat (f <$> l).
Proof. induction l as [|x l IH]; [done|]. cbn. by rewrite IH. Qed.

Lemma Forall2_fmap_self {A B} (P : A → B → Prop) (f : A → B) (l : list A) :
  (∀ x, P x (f x)) → Forall2 P l (f <$> l).
Proof. intros Hf. induction l; constructor; auto. Qed.

Lemma length_concat_Forall2 {A B} (ps : list (list A)) (gs : list (list B)) :
  Forall2 (λ p g, length g = length p) ps gs → length (concat gs) = length (concat ps).
Proof. induction 1 as [|p g ps gs E _ IH]; [done|]. cbn. rewrite !length_app. lia. Qed.

(** Lines 110-111 taken by themselves, on a frame in which [branch],
    [loan_date] and [Amount] each denote one column (the transformer
    never builds such a frame, see the part on how far it gets).  The rows of each branch
    form one partition, in ascending [loan_date] order, and every input row
    is in exactly one of them; in each partition the first row's
    [avgLoanAmount] is its own amount, the second row's is the mean of the
    first two amounts, and every later row's is the mean of its amount and
    the two before it; the output has one row per input row. *)
Theorem moving_average_over_trailing_three `{Engine} (joined_df : DataFrame)
    (pa oa va : attr) (w : World) :
  resolve joined_df "branch" = Returned pa →
  resolve joined_df "loan_date" = Returned oa →
  resolve joined_df "Amount" = Returned va →
  let new : attr := (w_next_id w, "avgLoanAmount") in
  let amount (r : Row) := cell_double (r !! va) in
  let parts := sort_rows oa <$> partition_rows pa (df_rows joined_df) in
  (* the partitions: the rows of each branch, ascending by loan_date *)
  concat parts ≡ₚ df_rows joined_df
  ∧ (∀ part, part ∈ parts →
       Sorted (row_le oa) part
       ∧ ∃ k, part ≡ₚ filter (λ r : Row, r !! pa = k) (df_rows joined_df))
  (* the new column, partition by partition, with every row kept *)
  ∧ (∃ out groups,
       add_avgLoanAmount joined_df w = (Returned out, with_next_id S w)
       ∧ df_rows out = concat groups
       ∧ Forall2 (trailing_three_averages amount new) parts groups
       ∧ length (df_rows out) = length (df_rows joined_df))
  (* the mean of two and of three amounts *)
  ∧ (∀ a b : Qc, sql_avg [Some a; Some b] = Some ((a + b) / Qc_of_nat 2)%Qc)
  ∧ (∀ a b c : Qc, sql_avg [Some a; Some b; Some c] = Some ((a + b + c) / Qc_of_nat 3)%Qc).
Proof.
  intros Rp Ro Rv new amount parts.
  assert (Hcover : concat parts ≡ₚ df_rows joined_df).
  { subst parts. rewrite concat_fmap_perm by apply merge_sort_Permutation.
    apply (groups_cover (λ r : Row, r !! pa)). }
  split; [exact Hcover|]. split.
  { intros part Hpart. subst parts.
    apply list_elem_of_fmap in Hpart as (raw & -> & Hraw). split.
    - apply Sorted_merge_sort. apply _.
    - unfold partition_rows in Hraw. apply list_elem_of_fmap in Hraw as (k & -> & _).
      exists k. apply merge_sort_Permutation. }
  split; [|split; [apply sql_avg_two|apply sql_avg_three]].
  set (annotate := λ part : list Row,
         imap (λ i r, put_cell new (VDouble <$> avg_over va (-2) 0 part i) r) part).
  exists {| df_schema := put_column new (df_schema joined_df);
            df_rows := window_rows new pa oa va (-2) 0 (df_rows joined_df) |},
         (annotate <$> parts).
  assert (Hgroups : Forall2 (trailing_three_averages amount new) parts (annotate <$> parts)).
  { apply Forall2_fmap_self. intros part. apply annotate_trailing. }
  assert (Hrows : window_rows new pa oa va (-2) 0 (df_rows joined_df)
                  = concat (annotate <$> parts)).
  { unfold window_rows. apply list_bind_concat. }
  split_and!.
  - unfold add_avgLoanAmount, df_withColumn_avg_over. py_unfold.
    cbn [partition_by order_by rows_lo rows_hi window_spec]. by rewrite Rp, Ro, Rv.
  - exact Hrows.
  - exact Hgroups.
  - cbn [df_rows]. rewrite Hrows, <- (Permutation_length Hcover).
    apply length_concat_Forall2. eapply Forall2_impl; [exact Hgroups|].
    by intros p g (Hlen & _).
Qed.

Lemma moving_average_on_sample_frame :
  resolve loans_df "branch" = Returned (0, "branch")
  ∧ resolve loans_df "loan_date" = Returned (0, "loan_date")
  ∧ resolve loans_df "Amount" = Returned (0, "Amount")
  ∧ ∃ out, add_avgLoanAmount loans_df sample_world
           = (Returned out, with_next_id S sample_world)
           ∧ length (df_rows out) = 5.
Proof.
  split_and!; try reflexivity.
  destruct (moving_average_over_trailing_three loans_df (0, "branch") (0, "loan_date")
              (0, "Amount") sample_world eq_refl eq_refl eq_refl)
    as (_ & _ & (out & groups & Hrun & _ & _ & Hlen) & _).
  exists out. split; [exact Hrun|exact Hlen].
Defined.

(** The averages of the sample frame, partition by partition: north has
    the amounts 10, 20, 60, 40 in date order, south has 5. *)
Example moving_average_sample :
  match (add_avgLoanAmount loans_df sample_world).1 with
  | Returned out =>
      map (λ r : Row, (render_cell (r !! (0, "branch")),
                       render_cell (r !! (0, "Amount")),
                       render_cell (r !! (0, "avgLoanAmount"))))
          (df_rows out)
      = [("south", "5", "5/1"); ("north", "10", "10/1"); ("north", "20", "15/1");
         ("north", "60", "30/1"); ("north", "40", "40/1")]
  | Raised _ => False
  end.
Proof. vm_compute. reflexivity. Qed.

(* ================================================================== *)
(** * The layout of storage *)
(* ================================================================== *)

Lemma string_length_app (s1 s2 : string) :
  String.length (s1 +:+ s2) = (String.length s1 + String.length s2)%nat.
Proof.
  induction s1 as [|c s1 IH]; [done|].
  change (S (String.length (s1 +:+ s2)) = S (String.length s1 + String.length s2)).
  by rewrite IH.
Qed.

Lemma string_app_inj_length (s1 s2 r1 r2 : string) :
  String.length s1 = String.length s2 → s1 +:+ r1 = s2 +:+ r2 → s1 = s2 ∧ r1 = r2.
Proof.
  revert s2. induction s1 as [|c s1 IH]; intros [|d s2] Hlen Heq; try done.
  change (String c (s1 +:+ r1) = String d (s2 +:+ r2)) in Heq.
  injection Heq as -> Heq. injection Hlen as Hlen.
  destruct (IH _ Hlen Heq) as [-> ->]. done.
Qed.

Lemma landing_path_inj (year_month t1 t2 : string) :
  landing_path year_month t1 = landing_path year_month t2 → t1 = t2.
Proof.
  intros Heq. unfold landing_path in Heq.
  cbv -[String.append] in Heq. simplify_eq.
  assert (Hlen : String.length t1 = String.length t2).
  { apply (f_equal String.length) in Heq. rewrite !string_length_app in Heq. lia. }
  by destruct (string_app_inj_length _ _ _ _ Hlen Heq).
Qed.

Lemma transform_path_inj (year_month current_date b1 b2 : string) :
  transform_path year_month b1 current_date = transform_path year_month b2 current_date →
  b1 = b2.
Proof.
  intros Heq. unfold transform_path in Heq.
  cbv -[String.append] in Heq. simplify_eq.
  assert (Hlen : String.length b1 = String.length b2).
  { apply (f_equal String.length) in Heq. rewrite !string_length_app in Heq. lia. }
  by destruct (string_app_inj_length _ _ _ _ Hlen Heq).
Qed.

(** X1 — the paths of lines 71 and 121: for one [year_month], two
    tables have two landing paths; two bank names that are strings have
    two output paths (for one run date), while a null bank name is written
    to the path of the bank whose name is the string [None]; and no output
    path is a landing path, whatever the names. *)
Theorem storage_paths_do_not_collide `{Engine} (year_month : string) :
  (∀ t1 t2, landing_path year_month t1 = landing_path year_month t2 → t1 = t2)
  ∧ (∀ (b1 b2 current_date : string),
       transform_path year_month (py_str (Some (VStr b1))) current_date
       = transform_path year_month (py_str (Some (VStr b2))) current_date →
       b1 = b2)
  ∧ (∀ current_date : string,
       transform_path year_month (py_str None) current_date
       = transform_path year_month (py_str (Some (VStr "None"))) current_date)
  ∧ (∀ ym' bank current_date table,
       transform_path year_month bank current_date ≠ landing_path ym' table).
Proof.
  split_and!.
  - apply landing_path_inj.
  - intros b1 b2 c. apply transform_path_inj.
  - reflexivity.
  - intros ym' bank c table. unfold transform_path, landing_path.
    cbv -[String.append]. by intros [=].
Qed.

(* ================================================================== *)
(** * The window in calendar terms *)
(* ================================================================== *)



(* ================================================================== *)
(** * Secrets and the session *)
(* ================================================================== *)

(** X3 — [get_secrets] makes one call.  It returns the value of a
    non-empty secret string that is JSON, whatever kind of value that is
    (an object, a list, a number, a string), and then logs nothing; every
    failure (the call, a missing or empty secret, text that is not JSON)
    is logged once with its exception and raised again. *)
Theorem get_secrets_outcome `{Engine} (secret_name : string) (w : World) :
  let w1 := with_trace (λ t, t ++ [GetSecretValue secret_name]) w in
  match (get_secrets secret_name w).1 with
  | Returned v =>
      (* success: the secret is a non-empty string that is JSON; nothing is logged *)
      (get_secrets secret_name w).2 = w1
      ∧ w_fault w (GetSecretValue secret_name) = None
      ∧ ∃ s, w_secrets w !! secret_name = Some s ∧ s ≠ "" ∧ json_loads s = Some v
  | Raised e =>
      (* failure: logged once, with the exception, and raised again *)
      (get_secrets secret_name w).2
      = logged [LogError "Error while retrieving secrets from AWS Secrets Manager.";
                LogException e] w1
      ∧ (w_fault w (GetSecretValue secret_name) = Some e
         ∨ (w_fault w (GetSecretValue secret_name) = None
            ∧ (w_secrets w !! secret_name = None ∨ w_secrets w !! secret_name = Some "")
            ∧ e = ValueError "Failed to retrieve secrets from AWS Secrets Manager.")
         ∨ (w_fault w (GetSecretValue secret_name) = None
            ∧ ∃ s, w_secrets w !! secret_name = Some s ∧ s ≠ "" ∧ json_loads s = None
                   ∧ e = JSONDecodeError s))
  end.
Proof.
  unfold get_secrets. py_unfold. cbn.
  destruct (w_oracle w _ (GetSecretValue secret_name)) as [e|] eqn:Hf; cbn.
  { split; [done|]. by left. }
  destruct (w_secrets w !! secret_name) as [[|c s]|] eqn:Hs; cbn.
  - split; [done|]. right; left. by auto.
  - destruct (json_loads (String c s)) as [v|] eqn:Hj; cbn.
    + split_and!; try done. by exists (String c s).
    + split; [done|]. right; right. split; [done|]. by exists (String c s).
  - split; [done|]. right; left. by auto.
Qed.

(** X4 — [create_spark_session] returns the session after both calls
    succeeded; when the context cannot be created the builder is never
    called; either failure is logged with its exception and raised again. *)
Theorem create_spark_session_outcome (w : World) :
  let w1 := with_trace (λ t, t ++ [SparkContextCreate]) w in
  let w2 := with_trace (λ t, t ++ [SessionGetOrCreate "Data Extraction"]) w1 in
  match (create_spark_session w).1 with
  | Returned _ =>
      create_spark_session w = (Returned Session, w2)
      ∧ w_fault w SparkContextCreate = None
      ∧ w_fault w1 (SessionGetOrCreate "Data Extraction") = None
  | Raised e =>
      (* the context failed: the builder is never called *)
      (w_fault w SparkContextCreate = Some e
       ∧ (create_spark_session w).2
         = logged [LogError "Failed to create SparkSession."; LogException e] w1)
      (* the builder failed *)
      ∨ (w_fault w SparkContextCreate = None
         ∧ w_fault w1 (SessionGetOrCreate "Data Extraction") = Some e
         ∧ (create_spark_session w).2
           = logged [LogError "Failed to create SparkSession."; LogException e] w2)
  end.
Proof.
  unfold create_spark_session. py_unfold. cbn.
  destruct (w_oracle w _ SparkContextCreate) as [e|] eqn:H1; cbn; [by left|].
  destruct (w_oracle w _ (SessionGetOrCreate _)) as [e|] eqn:H2; cbn; [by right|done].
Qed.

(* ================================================================== *)
(** * The staging loop *)
(* ================================================================== *)

(** A loop over at least one table is its first extraction. *)
Lemma extract_all_stops `{Engine} (year_month : string) (spark : SparkSession)
    (props : AuroraProperties) (table : string) (later : list string) (s e : date)
    (w : World) :
  extract_all year_month spark props (table :: later) s e w
  = extract_monthly_data year_month spark props table s e w.
Proof.
  destruct (extract_monthly_data_raises year_month spark props table s e w)
    as (err & Hr & _).
  unfold extract_all. cbn [for_each]. rewrite (bind_raised _ _ _ _ Hr).
  destruct (extract_monthly_data year_month spark props table s e w) as [o w'].
  cbn in Hr. by subst.
Qed.

(** X5 — the staging loop never gets past its first table.  Whatever
    tables follow it in the list, the loop ends with the first
    extraction, which raises: the query for the first table is the only
    call made, no later table is queried, nothing is stored, and the log
    shows start, error with the name of the first table, exception and
    completion. *)
Theorem staging_stops_at_first_table `{Engine} (year_month : string)
    (spark : SparkSession) (props : AuroraProperties) (table : string)
    (later : list string) (s e : date) (w : World) :
  let r := extract_all year_month spark props (table :: later) s e w in
  ∃ err,
    r.1 = Raised err
    ∧ r = extract_monthly_data year_month spark props table s e w
    ∧ w_trace r.2 = w_trace w ++ [query_call props table s e]
    ∧ w_s3 r.2 = w_s3 w
    ∧ w_log r.2 = w_log w ++ failed_extraction_log table err.
Proof.
  cbn zeta.
  destruct (extract_monthly_data_raises year_month spark props table s e w)
    as (err & Hr & Htr & Hs3 & Hlog & _).
  exists err. by rewrite extract_all_stops.
Qed.

(** X6 — when the read of a table fails (the call itself, a table the
    source does not have, a table without [date_column]) the extractor
    raises without attempting the write: the query is its only call,
    storage is unchanged, and the log shows start, error with the table
    name, exception and completion. *)
Theorem failed_read_attempts_no_write `{Engine} (year_month : string)
    (spark : SparkSession) (props : AuroraProperties) (table : string)
    (s e : date) (w : World) :
  (is_Some (w_fault w (JdbcLoad (ap_url props)
                         (dbtable_of (sql_text {| q_table := table; q_start := s;
                                                  q_end := e |}))))
   ∨ w_db w !! table = None
   ∨ ∃ t, w_db w !! table = Some t ∧ "date_column" ∉ db_columns t) →
  let r := extract_monthly_data year_month spark props table s e w in
  ∃ err,
    r.1 = Raised err
    ∧ w_trace r.2
      = w_trace w ++ [JdbcLoad (ap_url props)
                        (dbtable_of (sql_text {| q_table := table; q_start := s;
                                                 q_end := e |}))]
    ∧ w_s3 r.2 = w_s3 w
    ∧ w_log r.2
      = w_log w ++ [LogInfo ("Starting data extraction process for table: " +:+ table);
                    LogError ("An error occurred during data extraction for table: "
                              +:+ table);
                    LogException err;
                    LogInfo ("Data extraction process completed for table: " +:+ table)].
Proof.
  intros Hfail r.
  assert (Htry : ∃ err, (extract_try year_month spark props table s e w).1 = Raised err
                        ∧ w_trace (extract_try year_month spark props table s e w).2
                          = w_trace w ++ [JdbcLoad (ap_url props)
                               (dbtable_of (sql_text {| q_table := table; q_start := s;
                                                        q_end := e |}))]
                        ∧ w_s3 (extract_try year_month spark props table s e w).2 = w_s3 w
                        ∧ w_log (extract_try year_month spark props table s e w).2
                          = w_log w ++ [LogInfo ("Starting data extraction process for table: "
                                                 +:+ table)]).
  { unfold extract_try, spark_read_jdbc, with_enter, dbtable_of in *. py_unfold. cbn.
    destruct (w_oracle w _ (JdbcLoad _ _)) as [e0|] eqn:Hf; cbn; [by eauto|].
    destruct Hfail as [[x Hx]|[Hnone|(t & Ht & Hcol)]]; [done| |].
    - rewrite Hnone. cbn. eauto.
    - rewrite Ht. rewrite bool_decide_eq_false_2 by done. cbn. eauto. }
  destruct Htry as (err & Hraise & Htr & Hs3 & Hlog).
  exists err. subst r. rewrite (extract_monthly_data_raised _ _ _ _ _ _ _ _ Hraise).
  cbn [fst snd]. rewrite w_log_logged.
  destruct (logged_same
      [LogError ("An error occurred during data extraction for table: " +:+ table);
       LogException err;
       LogInfo ("Data extraction process completed for table: " +:+ table)]
      (extract_try year_month spark props table s e w).2) as (-> & -> & _).
  rewrite Htr, Hs3, Hlog, <- app_assoc. done.
Qed.

Lemma failed_read_attempts_no_write_witness :
  w_db sample_world !! "Missing" = None
  ∧ ∃ err, (extract_monthly_data "202611" Session sample_props "Missing"
              (Date 2026 11 1) (Date 2026 11 30) sample_world).1 = Raised err
           ∧ w_s3 (extract_monthly_data "202611" Session sample_props "Missing"
                     (Date 2026 11 1) (Date 2026 11 30) sample_world).2
             = w_s3 sample_world.
Proof.
  assert (H0 : w_db sample_world !! "Missing" = None) by reflexivity.
  split; [exact H0|].
  destruct (failed_read_attempts_no_write "202611" Session sample_props "Missing"
              (Date 2026 11 1) (Date 2026 11 30) sample_world
              (or_intror (or_introl H0))) as (err & Hr & _ & Hs & _).
  exists err. split; [exact Hr|exact Hs].
Defined.

(* ================================================================== *)
(** * More on the driver *)
(* ================================================================== *)

Section MoreDriver.
Context `{Engine}.
Variable year_month : string.

Lemma staging_call_driver_call (table_names : list string) (ev : event) :
  staging_call ev → driver_call year_month table_names ev.
Proof. by destruct ev. Qed.

Lemma main_stage_driver_calls w :
  emits (driver_call year_month (drop 1 (w_argv w))) w (main_stage year_month w).2.
Proof.
  eapply emits_weaken; [|apply main_stage_emits].
  apply staging_call_driver_call.
Qed.

(** Lines 134-145 when the four set-up calls go through and the secret
    is a non-empty string that is JSON: the rest of the [try] block
    starts with the value of the secret, in the world after those calls. *)
Lemma main_stage_after_setup w secret v :
  (2 ≤ length (w_argv w))%nat →
  w_fault w GlueContextCreate = None →
  w_fault (after_calls [GlueContextCreate] w) SparkContextCreate = None →
  w_fault (after_calls [GlueContextCreate; SparkContextCreate] w)
          (SessionGetOrCreate "Data Extraction") = None →
  w_fault (after_calls [GlueContextCreate; SparkContextCreate;
                        SessionGetOrCreate "Data Extraction"] w)
          (GetSecretValue "your-aurora-secret-name") = None →
  w_secrets w !! "your-aurora-secret-name" = Some secret →
  secret ≠ "" →
  json_loads secret = Some v →
  main_stage year_month w
  = (aurora_endpoint ← dict_get v "endpoint";
     if negb (py_truthy aurora_endpoint)
     then raise (ValueError "Aurora endpoint not found in Secrets Manager response.")
     else
       user ← dict_get v "username";
       password ← dict_get v "password";
       current_date ← gets w_now;
       extract_all year_month Session
         {| ap_user := user; ap_password := password;
            ap_driver := "com.mysql.jdbc.Driver";
            ap_url := "jdbc:mysql://" +:+ py_format aurora_endpoint +:+ ":3306/BankingDB" |}
         (drop 1 (w_argv w)) (start_date_of current_date) (end_date_of current_date);;
       mret Session)
      (after_calls setup_calls w).
Proof.
  intros Hlen F1 F2 F3 F4 Hsec Hne Hj.
  assert (Hltb : (length (w_argv w) <? 2)%nat = false) by by apply Nat.ltb_ge.
  unfold main_stage, main_with_args, create_spark_session, get_secrets, setup_calls.
  py_unfold. positions.
  cbn -[extract_all Nat.ltb length drop dict_get py_truthy py_format].
  rewrite F1. cbn -[extract_all Nat.ltb length drop dict_get py_truthy py_format].
  rewrite Hltb. cbn -[extract_all Nat.ltb length drop dict_get py_truthy py_format].
  positions. rewrite F2.
  cbn -[extract_all Nat.ltb length drop dict_get py_truthy py_format].
  positions. rewrite F3.
  cbn -[extract_all Nat.ltb length drop dict_get py_truthy py_format].
  positions. rewrite F4.
  cbn -[extract_all Nat.ltb length drop dict_get py_truthy py_format].
  rewrite Hsec. destruct secret as [|c s]; [done|]. rewrite Hj.
  cbn -[extract_all Nat.ltb length drop dict_get py_truthy py_format].
  rewrite !with_trace_app. reflexivity.
Qed.
End MoreDriver.

(** X7 — every run of [main] ends in its handler: the [try] block always
    raises, [main] logs the exception and returns normally.  Whatever
    happened, the run only set up the session, fetched the secret, sent
    queries and wrote landing objects of named tables: it never read
    storage, never collected and never called [spark.stop()], and every
    object that is not the landing object of a named table is as it was. *)
Theorem main_always_ends_in_handler `{Engine} (year_month : string) (w : World) :
  ∃ err w1,
    main_try year_month w = (Raised err, w1)
    ∧ main year_month w
      = (Returned tt,
         logged [LogError "An unexpected error occurred."; LogException err] w1)
    ∧ (∃ evs, w_trace (main year_month w).2 = w_trace w ++ evs
              ∧ Forall (driver_call year_month (drop 1 (w_argv w))) evs)
    ∧ (∀ p, (∀ t, t ∈ drop 1 (w_argv w) → p ≠ landing_path year_month t) →
            w_s3 (main year_month w).2 !! p = w_s3 w !! p).
Proof.
  destruct (main_try_raises year_month w) as [err Htry].
  exists err, (main_stage year_month w).2.
  assert (Hmain : main year_month w
                  = (Returned tt,
                     logged [LogError "An unexpected error occurred."; LogException err]
                            (main_stage year_month w).2)).
  { unfold main. rewrite (try_except_raised _ _ _ err); by rewrite Htry. }
  split; [done|]. split; [done|].
  rewrite Hmain. cbn [snd].
  destruct (logged_same [LogError "An unexpected error occurred."; LogException err]
              (main_stage year_month w).2) as (-> & -> & _).
  destruct (main_stage_driver_calls year_month w) as (evs & Ht & Hf & Hfoot).
  split; [eauto|].
  intros p Hp. apply Hfoot. cbn. intros (t & Hin & ->). by apply (Hp t).
Qed.

(** X8 — a run with at least one table name, whose four set-up calls go
    through and whose secret is an object with an endpoint that counts as
    true, makes exactly five calls: the Glue context, the Spark context,
    the session, the secret, and the query for the first named table,
    sent to the URL built from the endpoint with the window of the month
    of the run.  The first extraction raises, the handler of [main] logs
    the error a second time and [main] returns: no other table is
    queried and nothing is stored. *)
Theorem run_makes_one_query `{Engine} (year_month : string) (w : World)
    (prog table : string) (later : list string) (secret : string)
    (members : gmap string json) :
  w_argv w = prog :: table :: later →
  w_fault w GlueContextCreate = None →
  w_fault (after_calls [GlueContextCreate] w) SparkContextCreate = None →
  w_fault (after_calls [GlueContextCreate; SparkContextCreate] w)
          (SessionGetOrCreate "Data Extraction") = None →
  w_fault (after_calls [GlueContextCreate; SparkContextCreate;
                        SessionGetOrCreate "Data Extraction"] w)
          (GetSecretValue "your-aurora-secret-name") = None →
  w_secrets w !! "your-aurora-secret-name" = Some secret →
  secret ≠ "" →
  json_loads secret = Some (JObject members) →
  py_truthy (members !! "endpoint") = true →
  let query := query_call (properties_of members) table
                 (start_date_of (w_now w)) (end_date_of (w_now w)) in
  (main year_month w).1 = Returned tt
  ∧ w_trace (main year_month w).2 = w_trace w ++ setup_calls ++ [query]
  ∧ w_s3 (main year_month w).2 = w_s3 w
  ∧ ∃ err, w_log (main year_month w).2
           = w_log w ++ failed_extraction_log table err
             ++ [LogError "An unexpected error occurred."; LogException err].
Proof.
  intros Hargs F1 F2 F3 F4 Hsec Hne Hj Hep query.
  assert (Hlen : (2 ≤ length (w_argv w))%nat) by (rewrite Hargs; cbn; lia).
  pose proof (main_stage_after_setup year_month w secret (JObject members)
                Hlen F1 F2 F3 F4 Hsec Hne Hj) as Hstage.
  destruct (extract_monthly_data_raises year_month Session (properties_of members) table
              (start_date_of (w_now w)) (end_date_of (w_now w))
              (after_calls setup_calls w))
    as (err & Hr & Htr & Hs3 & Hlog & _).
  assert (Hst : main_stage year_month w
                = (Raised err,
                   (extract_monthly_data year_month Session (properties_of members) table
                      (start_date_of (w_now w)) (end_date_of (w_now w))
                      (after_calls setup_calls w)).2)).
  { rewrite Hstage, Hargs. unfold dict_get. py_unfold. rewrite Hep.
    cbn -[extract_all py_format]. rewrite extract_all_stops.
    fold (properties_of members).
    destruct (extract_monthly_data year_month Session (properties_of members) table _ _ _)
      as [o w'].
    cbn in Hr. by subst. }
  assert (Htry : main_try year_month w
                 = (Raised err,
                    (extract_monthly_data year_month Session (properties_of members) table
                       (start_date_of (w_now w)) (end_date_of (w_now w))
                       (after_calls setup_calls w)).2)).
  { unfold main_try. rewrite (bind_raised _ _ _ err); by rewrite Hst. }
  assert (Hmain : main year_month w
                  = (Returned tt,
                     logged [LogError "An unexpected error occurred."; LogException err]
                       (extract_monthly_data year_month Session (properties_of members) table
                          (start_date_of (w_now w)) (end_date_of (w_now w))
                          (after_calls setup_calls w)).2)).
  { unfold main. rewrite (try_except_raised _ _ _ err); by rewrite Htry. }
  rewrite Hmain. cbn [fst snd]. rewrite w_log_logged.
  destruct (logged_same [LogError "An unexpected error occurred."; LogException err]
              (extract_monthly_data year_month Session (properties_of members) table
                 (start_date_of (w_now w)) (end_date_of (w_now w))
                 (after_calls setup_calls w)).2) as (-> & -> & _).
  rewrite Htr, Hs3, Hlog. cbn [after_calls with_trace w_trace w_s3 w_log].
  split_and!; [done|by rewrite <- app_assoc|done|].
  exists err. by rewrite <- app_assoc.
Qed.

Lemma run_makes_one_query_witness :
  w_trace (main "202611" sample_world).2
  = setup_calls
    ++ [query_call (properties_of sample_credentials) "Loan"
          (Date 2026 11 1) (Date 2026 11 30)]
  ∧ w_s3 (main "202611" sample_world).2 = ∅.
Proof.
  assert (Hne : sample_secret ≠ "") by discriminate.
  assert (Hj : json_loads sample_secret = Some (JObject sample_credentials))
    by (vm_compute; reflexivity).
  destruct (run_makes_one_query "202611" sample_world "etl.py" "Loan" ["Branch"]
              sample_secret sample_credentials
              eq_refl eq_refl eq_refl eq_refl eq_refl eq_refl Hne Hj eq_refl)
    as (_ & H2 & H3 & _).
  split; [exact H2|exact H3].
Defined.

(** X9 — a secret that is an object without an endpoint (or with one
    that counts as false: empty, null, zero) stops the run with the
    configuration error after the secret was fetched: no query is sent
    and nothing is written; the session that was created is not stopped. *)
Theorem missing_endpoint_stops_before_extraction `{Engine} (year_month : string)
    (w : World) (secret : string) (d : gmap string json) :
  (2 ≤ length (w_argv w))%nat →
  w_fault w GlueContextCreate = None →
  w_fault (after_calls [GlueContextCreate] w) SparkContextCreate = None →
  w_fault (after_calls [GlueContextCreate; SparkContextCreate] w)
          (SessionGetOrCreate "Data Extraction") = None →
  w_fault (after_calls [GlueContextCreate; SparkContextCreate;
                        SessionGetOrCreate "Data Extraction"] w)
          (GetSecretValue "your-aurora-secret-name") = None →
  w_secrets w !! "your-aurora-secret-name" = Some secret →
  secret ≠ "" →
  json_loads secret = Some (JObject d) →
  (d !! "endpoint" = None ∨ d !! "endpoint" = Some (JString "")
   ∨ py_truthy (d !! "endpoint") = false) →
  let w1 := with_trace
              (λ t, t ++ [GlueContextCreate; SparkContextCreate;
                          SessionGetOrCreate "Data Extraction";
                          GetSecretValue "your-aurora-secret-name"]) w in
  let err := ValueError "Aurora endpoint not found in Secrets Manager response." in
  (main_try year_month w).1 = Raised err
  ∧ w_trace (main_try year_month w).2 = w_trace w1
  ∧ w_s3 (main_try year_month w).2 = w_s3 w
  ∧ w_log (main year_month w).2
    = w_log w ++ [LogError "An unexpected error occurred."; LogException err].
Proof.
  intros Hlen F1 F2 F3 F4 Hsec Hne Hj Hep w1 err.
  assert (Hfalse : py_truthy (d !! "endpoint") = false).
  { destruct Hep as [-> | [-> | Hep]]; done. }
  pose proof (main_stage_after_setup year_month w secret (JObject d)
                Hlen F1 F2 F3 F4 Hsec Hne Hj) as Hstage.
  assert (Hst : main_stage year_month w = (Raised err, w1)).
  { rewrite Hstage. unfold dict_get. py_unfold. by rewrite Hfalse. }
  assert (Htry : main_try year_month w = (Raised err, w1)).
  { unfold main_try. rewrite (bind_raised _ _ _ err); by rewrite Hst. }
  assert (Hmain : main year_month w
                  = (Returned tt,
                     logged [LogError "An unexpected error occurred."; LogException err] w1)).
  { unfold main. rewrite (try_except_raised _ _ _ err); by rewrite Htry. }
  rewrite Htry, Hmain. cbn [fst snd]. by rewrite w_log_logged.
Qed.

Lemma missing_endpoint_stops_before_extraction_witness :
  (@main_try endpointless_engine "202611" sample_world).1
  = Raised (ValueError "Aurora endpoint not found in Secrets Manager response.")
  ∧ w_s3 (@main_try endpointless_engine "202611" sample_world).2 = w_s3 sample_world.
Proof.
  assert (Hlen : (2 ≤ length (w_argv sample_world))%nat) by (vm_compute; lia).
  assert (Hne : sample_secret ≠ "") by discriminate.
  destruct (@missing_endpoint_stops_before_extraction endpointless_engine "202611"
              sample_world sample_secret (<["username" := JString "etl"]> ∅)
              Hlen eq_refl eq_refl eq_refl eq_refl eq_refl Hne eq_refl
              (or_introl eq_refl)) as (H1 & _ & H3 & _).
  split; [exact H1|exact H3].
Defined.

(** X10 — a failure of the secret request reaches the log twice, once from
    [get_secrets] and once from the handler of [main], which then returns
    normally; the run made four calls and left storage alone. *)
Theorem secret_failure_is_logged_twice `{Engine} (year_month : string)
    (w : World) (err : exn) :
  (2 ≤ length (w_argv w))%nat →
  w_fault w GlueContextCreate = None →
  w_fault (after_calls [GlueContextCreate] w) SparkContextCreate = None →
  w_fault (after_calls [GlueContextCreate; SparkContextCreate] w)
          (SessionGetOrCreate "Data Extraction") = None →
  w_fault (after_calls [GlueContextCreate; SparkContextCreate;
                        SessionGetOrCreate "Data Extraction"] w)
          (GetSecretValue "your-aurora-secret-name") = Some err →
  (main year_month w).1 = Returned tt
  ∧ w_log (main year_month w).2
    = w_log w ++ [LogError "Error while retrieving secrets from AWS Secrets Manager.";
                  LogException err;
                  LogError "An unexpected error occurred.";
                  LogException err]
  ∧ w_trace (main year_month w).2
    = w_trace w ++ [GlueContextCreate; SparkContextCreate;
                    SessionGetOrCreate "Data Extraction";
                    GetSecretValue "your-aurora-secret-name"]
  ∧ w_s3 (main year_month w).2 = w_s3 w.
Proof.
  intros Hlen F1 F2 F3 F4.
  assert (Hltb : (length (w_argv w) <? 2)%nat = false) by by apply Nat.ltb_ge.
  unfold main, main_try, main_stage, main_with_args, create_spark_session, get_secrets.
  py_unfold. positions. cbn -[extract_all Nat.ltb length drop].
  rewrite F1. cbn -[extract_all Nat.ltb length drop]. rewrite Hltb.
  cbn -[extract_all Nat.ltb length drop]. positions. rewrite F2.
  cbn -[extract_all Nat.ltb length drop]. positions. rewrite F3.
  cbn -[extract_all Nat.ltb length drop]. positions. rewrite F4.
  cbn. by rewrite <- !app_assoc.
Qed.

Lemma secret_failure_is_logged_twice_witness :
  (main "202611" secret_store_down_world).1 = Returned tt
  ∧ w_log (main "202611" secret_store_down_world).2
    = [LogError "Error while retrieving secrets from AWS Secrets Manager.";
       LogException (ExternalError "AccessDeniedException");
       LogError "An unexpected error occurred.";
       LogException (ExternalError "AccessDeniedException")].
Proof.
  assert (Hlen : (2 ≤ length (w_argv secret_store_down_world))%nat) by (vm_compute; lia).
  destruct (secret_failure_is_logged_twice "202611" secret_store_down_world
              (ExternalError "AccessDeniedException")
              Hlen eq_refl eq_refl eq_refl eq_refl) as (H1 & H2 & _).
  split; [exact H1|exact H2].
Defined.

(** X12 — a secret that is JSON but not an object (a list, a string, a
    number).  [get_secrets] returns it without logging; line 148 then
    fails on [.get], outside [get_secrets], so the error reaches the log
    once, from the handler of [main], after the four set-up calls; no
    query is sent and nothing is written. *)
Theorem secret_that_is_no_object_fails_at_get `{Engine} (year_month : string)
    (w : World) (secret : string) (v : json) :
  (2 ≤ length (w_argv w))%nat →
  w_fault w GlueContextCreate = None →
  w_fault (after_calls [GlueContextCreate] w) SparkContextCreate = None →
  w_fault (after_calls [GlueContextCreate; SparkContextCreate] w)
          (SessionGetOrCreate "Data Extraction") = None →
  w_fault (after_calls [GlueContextCreate; SparkContextCreate;
                        SessionGetOrCreate "Data Extraction"] w)
          (GetSecretValue "your-aurora-secret-name") = None →
  w_secrets w !! "your-aurora-secret-name" = Some secret →
  secret ≠ "" →
  json_loads secret = Some v →
  (∀ members, v ≠ JObject members) →
  let err := AttributeError ("'" +:+ py_type_name v +:+ "' object has no attribute 'get'") in
  (main_try year_month w).1 = Raised err
  ∧ w_trace (main_try year_month w).2 = w_trace w ++ setup_calls
  ∧ w_s3 (main_try year_month w).2 = w_s3 w
  ∧ w_log (main year_month w).2
    = w_log w ++ [LogError "An unexpected error occurred."; LogException err].
Proof.
  intros Hlen F1 F2 F3 F4 Hsec Hne Hj Hobj err.
  pose proof (main_stage_after_setup year_month w secret v
                Hlen F1 F2 F3 F4 Hsec Hne Hj) as Hstage.
  assert (Hst : main_stage year_month w = (Raised err, after_calls setup_calls w)).
  { rewrite Hstage. subst err. destruct v; try reflexivity. by destruct (Hobj members). }
  assert (Htry : main_try year_month w = (Raised err, after_calls setup_calls w)).
  { unfold main_try. rewrite (bind_raised _ _ _ err); by rewrite Hst. }
  assert (Hmain : main year_month w
                  = (Returned tt,
                     logged [LogError "An unexpected error occurred."; LogException err]
                            (after_calls setup_calls w))).
  { unfold main. rewrite (try_except_raised _ _ _ err); by rewrite Htry. }
  rewrite Htry, Hmain. cbn [fst snd]. by rewrite w_log_logged.
Qed.

Lemma secret_that_is_no_object_fails_at_get_witness :
  (@main_try list_secret_engine "202611" sample_world).1
  = Raised (AttributeError "'list' object has no attribute 'get'")
  ∧ w_log (@main list_secret_engine "202611" sample_world).2
    = [LogError "An unexpected error occurred.";
       LogException (AttributeError "'list' object has no attribute 'get'")].
Proof.
  assert (Hlen : (2 ≤ length (w_argv sample_world))%nat) by (vm_compute; lia).
  assert (Hne : sample_secret ≠ "") by discriminate.
  assert (Hobj : ∀ members, JArray [JInt 1; JInt 2] ≠ JObject members) by done.
  destruct (@secret_that_is_no_object_fails_at_get list_secret_engine "202611"
              sample_world sample_secret (JArray [JInt 1; JInt 2])
              Hlen eq_refl eq_refl eq_refl eq_refl eq_refl Hne eq_refl Hobj)
    as (H1 & _ & _ & H4).
  split; [exact H1|exact H4].
Defined.

(* ================================================================== *)
(** * What the transformer can read *)
(* ================================================================== *)

Lemma chars_app (s1 s2 : string) : chars (s1 +:+ s2) = chars s1 ++ chars s2.
Proof.
  induction s1 as [|c s1 IH]; [done|].
  change (c :: chars (s1 +:+ s2) = c :: (chars s1 ++ chars s2)). by rewrite IH.
Qed.

Lemma glob_match_literal (lit p s : string) :
  "*"%char ∉ chars lit → glob_match (lit +:+ p) (lit +:+ s) = glob_match p s.
Proof.
  induction lit as [|c lit IH]; intros Hstar; [done|].
  change (glob_match (String c (lit +:+ p)) (String c (lit +:+ s)) = glob_match p s).
  cbn [glob_match]. rewrite bool_decide_eq_false_2.
  - rewrite bool_decide_eq_true_2 by done. cbn. apply IH.
    intros Hin. apply Hstar. by right.
  - intros ->. apply Hstar. by left.
Qed.

Lemma glob_match_csv_suffix (s : string) : glob_match ".csv" s = true → s = ".csv".
Proof.
  destruct s as [|a [|b [|c [|d [|e s]]]]]; cbn; try discriminate;
    repeat (case_bool_decide; cbn; try discriminate); by simplify_eq.
Qed.

Lemma glob_match_star_csv (s : string) :
  "/"%char ∈ chars s → glob_match "*.csv" s = false.
Proof.
  induction s as [|d s IH]; intros Hin; [by apply elem_of_nil in Hin|].
  change (glob_match "*.csv" (String d s))
    with (glob_match ".csv" (String d s)
          || (negb (bool_decide (d = "/"%char)) && glob_match "*.csv" s)).
  apply orb_false_iff. split.
  - apply not_true_iff_false. intros Hm%glob_match_csv_suffix.
    rewrite Hm in Hin.
    assert (Hno : "/"%char ∉ chars ".csv")
      by (apply (bool_decide_unpack _); vm_compute; reflexivity).
    done.
  - case_bool_decide as Hd; [done|]. cbn.
    apply IH. change (chars (String d s)) with (d :: chars s) in Hin.
    apply elem_of_cons in Hin as [Hin|Hin]; [by subst|done].
Qed.

Lemma landing_glob_misses_landing_path (year_month table : string) :
  "*"%char ∉ chars table →
  glob_match (landing_glob table) (landing_path year_month table) = false.
Proof.
  intros Hstar. unfold landing_glob, landing_path.
  rewrite (glob_match_literal s3_base_path) by (apply (bool_decide_unpack _); vm_compute; reflexivity).
  rewrite (glob_match_literal "/") by (apply (bool_decide_unpack _); vm_compute; reflexivity).
  rewrite (glob_match_literal landing) by (apply (bool_decide_unpack _); vm_compute; reflexivity).
  rewrite (glob_match_literal "/") by (apply (bool_decide_unpack _); vm_compute; reflexivity).
  rewrite (glob_match_literal table) by done.
  change "/*.csv" with ("/" +:+ "*.csv").
  rewrite (glob_match_literal "/") by (apply (bool_decide_unpack _); vm_compute; reflexivity).
  apply glob_match_star_csv.
  rewrite chars_app, elem_of_app. right. rewrite chars_app, elem_of_app. left.
  apply (bool_decide_unpack _). vm_compute. reflexivity.
Qed.

Lemma spark_read_csv_result (spark : SparkSession) (glob : string) (w : World) :
  let w1 := with_trace (λ t, t ++ [CsvRead glob]) w in
  spark_read_csv spark glob w
  = match w_fault w (CsvRead glob) with
    | Some e => (Raised e, w1)
    | None =>
        match matching_files glob (w_s3 w) with
        | [] => (Raised (AnalysisException ("Path does not exist: " +:+ glob)), w1)
        | files => (Returned (from_csv (w_next_id w) files), with_next_id S w1)
        end
    end.
Proof.
  unfold spark_read_csv, matching_files. py_unfold. cbn.
  destruct (w_oracle w _ (CsvRead glob)); cbn; [done|].
  by destruct ((map_to_list _).*2).
Qed.

(** X11 — the transformer cannot read an extract that lies where line 71
    would put it: the glob of lines 89-93 stops at the directory of the
    table, the landing path lies one directory deeper, whatever the
    month.  So when storage holds nothing but extracts of the table at
    landing paths, the first read finds no file: the transformer fails
    with a path-does-not-exist error after one call, and its handler logs
    it. *)
Theorem transformer_cannot_read_staged_extract `{Engine} (year_month : string)
    (spark : SparkSession) (table : string) (w : World) :
  "*"%char ∉ chars table →
  (∀ p, is_Some (w_s3 w !! p) → ∃ ym, p = landing_path ym table) →
  w_fault w (CsvRead (landing_glob table)) = None →
  let err := AnalysisException ("Path does not exist: " +:+ landing_glob table) in
  (∀ ym, glob_match (landing_glob table) (landing_path ym table) = false)
  ∧ (transform_try year_month spark table w).1 = Raised err
  ∧ w_trace (transform_try year_month spark table w).2
    = w_trace w ++ [CsvRead (landing_glob table)]
  ∧ w_log (transform_monthly_data year_month spark table w).2
    = w_log w ++ [LogError "An unexpected error occurred."; LogException err].
Proof.
  intros Hstar Hlayout Hfault err.
  assert (Hmiss : ∀ ym, glob_match (landing_glob table) (landing_path ym table) = false).
  { intros ym. by apply landing_glob_misses_landing_path. }
  assert (Hnone : matching_files (landing_glob table) (w_s3 w) = []).
  { unfold matching_files.
    assert (Hempty : filter (λ kv : string * CsvFile,
                               glob_match (landing_glob table) kv.1 = true) (w_s3 w)
                     = ∅); [|by rewrite Hempty, map_to_list_empty].
    apply map_eq. intros p. rewrite lookup_empty. apply map_lookup_filter_None.
    destruct (w_s3 w !! p) as [x|] eqn:Hp; [|by left].
    right. intros y _. cbn.
    destruct (Hlayout p) as [ym ->]; [by rewrite Hp|]. by rewrite Hmiss. }
  assert (Hread : spark_read_csv spark (landing_glob table) w
                  = (Raised err, with_trace (λ t, t ++ [CsvRead (landing_glob table)]) w)).
  { rewrite spark_read_csv_result. cbn zeta. by rewrite Hfault, Hnone. }
  assert (Htry : transform_try year_month spark table w
                 = (Raised err, with_trace (λ t, t ++ [CsvRead (landing_glob table)]) w)).
  { unfold transform_try. cbn zeta. fold (landing_glob table).
    rewrite (bind_raised _ _ _ err); by rewrite Hread. }
  split; [exact Hmiss|]. rewrite Htry. split_and!; [done..|].
  assert (Hrun : transform_monthly_data year_month spark table w
                  = (Returned tt,
                     logged [LogError "An unexpected error occurred."; LogException err]
                       (with_trace (λ t, t ++ [CsvRead (landing_glob table)]) w))).
  { unfold transform_monthly_data.
    rewrite (try_except_raised _ _ _ err); by rewrite Htry. }
  rewrite Hrun. cbn [snd]. by rewrite w_log_logged.
Qed.

Lemma transformer_cannot_read_staged_extract_witness :
  is_Some (w_s3 staged_world !! landing_path "202611" "Loan")
  ∧ (transform_try "202611" Session "Loan" staged_world).1
    = Raised (AnalysisException ("Path does not exist: " +:+ landing_glob "Loan")).
Proof.
  assert (Hstar : "*"%char ∉ chars "Loan")
    by (apply (bool_decide_unpack _); vm_compute; reflexivity).
  assert (Hlayout : ∀ p, is_Some (w_s3 staged_world !! p) →
                         ∃ ym, p = landing_path ym "Loan").
  { intros p [x Hx]. unfold staged_world in Hx. cbn [w_s3] in Hx.
    apply lookup_insert_Some in Hx as [[<- _]|[_ Hx]].
    - by exists "202611".
    - by rewrite lookup_empty in Hx. }
  split.
  - exists [["2026-11-01"; "10"]; ["2026-11-29"; "20"]]. reflexivity.
  - by destruct (transformer_cannot_read_staged_extract "202611" Session "Loan"
                   staged_world Hstar Hlayout eq_refl) as (_ & H2 & _).
Defined.

(* ================================================================== *)
(** * The bank loop *)
(* ================================================================== *)

Lemma mapM_resolve_names (df : DataFrame) (names : list string) (attrs : list attr) :
  mapM (resolve df) names = Returned attrs → attrs.*2 = names.
Proof.
  revert attrs. induction names as [|n names IH]; intros attrs Hm.
  - by injection Hm as <-.
  - cbn in Hm. destruct (resolve df n) as [a|] eqn:Ha; [|discriminate]. cbn in Hm.
    destruct (mapM (resolve df) names) as [as'|] eqn:Has; [|discriminate].
    cbn in Hm. injection Hm as <-.
    apply resolve_returned in Ha as [_ Ha]. cbn. by rewrite Ha, (IH as').
Qed.

Lemma selected_frame_has_no_bank_name (df df' : DataFrame) :
  df_select df ["idBranch"; "avgLoanAmount"] = Returned df' →
  getattr_col df' "bank_name"
  = Raised (AttributeError "'DataFrame' object has no attribute 'bank_name'").
Proof.
  unfold df_select. intros Hsel.
  destruct (mapM (resolve df) ["idBranch"; "avgLoanAmount"]) as [attrs|] eqn:Hm;
    [|discriminate].
  cbn in Hsel. injection Hsel as <-.
  apply mapM_resolve_names in Hm.
  unfold getattr_col. cbn [df_schema].
  destruct attrs as [|[i a] [|[k b] [|c l]]]; try discriminate.
  cbn in Hm. injection Hm as -> ->. reflexivity.
Qed.

(** X13 — the loop of lines 118-122 writes at most one file, the one
    of the first bank name: it replaces [final_df] by the two-column
    projection, so with two or more bank names the next iteration fails
    on [final_df.bank_name]. *)
Theorem bank_loop_writes_at_most_one_file `{Engine} (year_month current_date : string)
    (final_df : DataFrame) (bank_names : list (option cell)) (w : World) :
  let r := bank_loop year_month current_date final_df bank_names w in
  (* no call at all, or the write for the first bank name and nothing after it *)
  (w_trace r.2 = w_trace w
   ∨ ∃ bank_name rest,
       bank_names = bank_name :: rest
       ∧ w_trace r.2
         = w_trace w ++ [CsvWrite (transform_path year_month (py_str bank_name)
                                     current_date)])
  (* with two bank names or more the loop raises *)
  ∧ ((2 ≤ length bank_names)%nat → ∃ err, r.1 = Raised err).
Proof.
  destruct bank_names as [|b rest]; cbn zeta.
  { split; [by left|]. cbn. lia. }
  cbn [bank_loop]. py_unfold.
  destruct (getattr_col final_df "bank_name") as [ba|e1] eqn:Hba;
    cbn -[df_select df_filter_eq transform_path py_str to_csv bank_loop];
    [|split; [by left|eauto]].
  destruct (df_select (df_filter_eq final_df ba b) ["idBranch"; "avgLoanAmount"])
    as [fd'|e2] eqn:Hsel;
    cbn -[df_select df_filter_eq transform_path py_str to_csv bank_loop];
    [|split; [by left|eauto]].
  unfold df_write_csv. py_unfold.
  cbn -[df_select df_filter_eq transform_path py_str to_csv bank_loop].
  destruct (w_oracle w _ (CsvWrite _)) as [e3|];
    cbn -[df_select df_filter_eq transform_path py_str to_csv bank_loop].
  { split; [right; by eauto|eauto]. }
  destruct rest as [|b2 rest]; cbn [bank_loop].
  { cbn -[transform_path py_str to_csv]. split; [right; by eauto|]. lia. }
  py_unfold. rewrite (selected_frame_has_no_bank_name _ _ Hsel).
  cbn -[transform_path py_str to_csv].
  split; [right; by eauto|eauto].
Qed.

(* ================================================================== *)
(** * How far the transformer gets *)
(* ================================================================== *)

Lemma resolve_raised (df : DataFrame) (name : string) (e : exn) :
  resolve df name = Raised e → ∃ msg, e = AnalysisException msg.
Proof.
  unfold resolve. destruct (filter _ (df_schema df)) as [|x [|y l]]; intros [= <-]; eauto.
Qed.

Lemma resolve_one (df : DataFrame) (name : string) (a : attr) :
  resolve df name = Returned a →
  length (filter (λ a : attr, a.2 = name) (df_schema df)) = 1%nat.
Proof.
  unfold resolve. by destruct (filter _ (df_schema df)) as [|x [|y l]]; intros [= <-].
Qed.

Lemma join_tables_raised (df1 df2 df3 df4 df5 : DataFrame) (e : exn) :
  join_tables df1 df2 df3 df4 df5 = Raised e → ∃ msg, e = AnalysisException msg.
Proof.
  unfold join_tables. intros Hj.
  repeat match type of Hj with
  | context [resolve ?d ?n] =>
      let R := fresh "R" in
      destruct (resolve d n) as [?|?] eqn:R; cbn in Hj;
      [|injection Hj as <-; by eapply resolve_raised]
  end.
  discriminate.
Qed.

Lemma join_tables_schema (df1 df2 df3 df4 df5 j : DataFrame) :
  join_tables df1 df2 df3 df4 df5 = Returned j →
  df_schema j
  = df_schema df1 ++ df_schema df2 ++ df_schema df3 ++ df_schema df4 ++ df_schema df5.
Proof.
  unfold join_tables. intros Hj.
  repeat match type of Hj with
  | context [resolve ?d ?n] =>
      destruct (resolve d n) as [?|?]; cbn in Hj; [|discriminate]
  end.
  injection Hj as <-. cbn. by rewrite <- !app_assoc.
Qed.

Lemma filter_tag_length (id : nat) (names : list string) (name : string) :
  length (filter (λ a : attr, a.2 = name) (map (tag id) names))
  = length (filter (λ n, n = name) names).
Proof.
  induction names as [|n names IH]; [done|].
  cbn [map]. rewrite !filter_cons. cbn.
  destruct (decide (n = name)); cbn; by rewrite IH.
Qed.

(** Five frames read from the same files: no name denotes exactly one
    attribute of their join. *)
Lemma self_join_name_unresolved (files : list CsvFile) (i1 i2 i3 i4 i5 : nat)
    (j : DataFrame) (name : string) :
  join_tables (from_csv i1 files) (from_csv i2 files) (from_csv i3 files)
              (from_csv i4 files) (from_csv i5 files) = Returned j →
  ∃ msg, resolve j name = Raised (AnalysisException msg).
Proof.
  intros Hj. destruct (resolve j name) as [a|e] eqn:Hr.
  - exfalso. apply resolve_one in Hr. rewrite (join_tables_schema _ _ _ _ _ _ Hj) in Hr.
    unfold from_csv in Hr. cbn [df_schema] in Hr.
    rewrite !filter_app, !length_app, !filter_tag_length in Hr. lia.
  - destruct (resolve_raised _ _ _ Hr) as [msg ->]. eauto.
Qed.

Lemma bind_read_cases {B} (spark : SparkSession) (glob : string) (w : World)
    (k : DataFrame → Py B) :
  (spark_read_csv spark glob ≫= k) w
  = let w1 := with_trace (λ t, t ++ [CsvRead glob]) w in
    match w_fault w (CsvRead glob) with
    | Some e => (Raised e, w1)
    | None =>
        match matching_files glob (w_s3 w) with
        | [] => (Raised (AnalysisException ("Path does not exist: " +:+ glob)), w1)
        | files => k (from_csv (w_next_id w) files) (with_next_id S w1)
        end
    end.
Proof.
  pose proof (spark_read_csv_result spark glob w) as Hr. cbn zeta in *.
  destruct (w_fault w (CsvRead glob)) as [e|].
  { rewrite (bind_raised _ _ _ e); by rewrite Hr. }
  destruct (matching_files glob (w_s3 w)) as [|f fs].
  { rewrite (bind_raised _ _ _ (AnalysisException ("Path does not exist: " +:+ glob)));
      by rewrite Hr. }
  rewrite (bind_returned _ _ _ (from_csv (w_next_id w) (f :: fs))); by rewrite Hr.
Qed.

(** Lines 110-111 on a frame in which [branch] does not denote one
    column. *)
Lemma add_avgLoanAmount_unresolved `{Engine} (j : DataFrame) (msg : string) (w : World) :
  resolve j "branch" = Raised (AnalysisException msg) →
  add_avgLoanAmount j w = (Raised (AnalysisException msg), w).
Proof.
  intros Hr. unfold add_avgLoanAmount, df_withColumn_avg_over. py_unfold.
  cbn [partition_by window_spec]. by rewrite Hr.
Qed.

Ltac stopped_after k :=
  cbn [fst snd w_trace w_next_id w_s3 with_trace with_next_id];
  split_and!;
  [ eauto
  | exists k; split; [lia|rewrite <- ?app_assoc; reflexivity]
  | lia
  | reflexivity ].

(** C1, as the code runs — the moving average is never computed.  Lines
    89-93 read all five frames from one glob, so the frames carry the
    same column names and no name denotes exactly one column of their
    join: line 103 cannot resolve [date], and lines 110-111 could not
    resolve [branch], [loan_date] or [Amount] either.  Every run of the
    [try] block of the transformer raises after one to five reads and
    no other call; it allocates at most the five identifiers of the
    reads, so no column is ever derived; and on the join of five frames
    read from the same files lines 110-111 themselves raise. *)
Theorem transformer_never_computes_the_average `{Engine} (year_month : string)
    (spark : SparkSession) (table : string) (w : World) :
  let glob := landing_glob table in
  let r := transform_try year_month spark table w in
  (* the try block raises *)
  (∃ err, r.1 = Raised err)
  (* after one to five reads of the one glob, and no other call *)
  ∧ (∃ k, (1 ≤ k ≤ 5)%nat ∧ w_trace r.2 = w_trace w ++ replicate k (CsvRead glob))
  (* no identifier beyond those of the reads: no column is derived *)
  ∧ (w_next_id r.2 ≤ w_next_id w + 5)%nat
  ∧ w_s3 r.2 = w_s3 w
  (* the join of five frames read from the same files resolves no name,
     and lines 110-111 raise on it *)
  ∧ (∀ (files : list CsvFile) (i1 i2 i3 i4 i5 : nat) (j : DataFrame),
       join_tables (from_csv i1 files) (from_csv i2 files) (from_csv i3 files)
                   (from_csv i4 files) (from_csv i5 files) = Returned j →
       (∀ name, ∃ msg, resolve j name = Raised (AnalysisException msg))
       ∧ ∀ w', ∃ msg, add_avgLoanAmount j w' = (Raised (AnalysisException msg), w')).
Proof.
  intros glob r.
  assert (Hjoin : ∀ (files : list CsvFile) (i1 i2 i3 i4 i5 : nat) (j : DataFrame),
            join_tables (from_csv i1 files) (from_csv i2 files) (from_csv i3 files)
                        (from_csv i4 files) (from_csv i5 files) = Returned j →
            (∀ name, ∃ msg, resolve j name = Raised (AnalysisException msg))
            ∧ ∀ w', ∃ msg, add_avgLoanAmount j w' = (Raised (AnalysisException msg), w')).
  { intros files i1 i2 i3 i4 i5 j Hj. split.
    - intros name. by eapply self_join_name_unresolved.
    - intros w'. destruct (self_join_name_unresolved _ _ _ _ _ _ _ "branch" Hj) as [msg Hmsg].
      exists msg. by apply add_avgLoanAmount_unresolved. }
  cut ((∃ err, r.1 = Raised err)
       ∧ (∃ k, (1 ≤ k ≤ 5)%nat ∧ w_trace r.2 = w_trace w ++ replicate k (CsvRead glob))
       ∧ (w_next_id r.2 ≤ w_next_id w + 5)%nat
       ∧ w_s3 r.2 = w_s3 w).
  { intros (H1 & H2 & H3 & H4). by split_and!. }
  clear Hjoin. subst r. unfold transform_try. cbn zeta. fold (landing_glob table).
  fold glob.
  rewrite bind_read_cases. cbn zeta.
  destruct (w_fault w (CsvRead glob)) as [e|]; [stopped_after 1%nat|].
  destruct (matching_files glob (w_s3 w)) as [|f fs] eqn:Hfiles; [stopped_after 1%nat|].
  rewrite bind_read_cases. cbn zeta. cbn [w_s3 w_next_id with_next_id with_trace].
  rewrite Hfiles.
  destruct (w_fault _ (CsvRead glob)) as [e|]; [stopped_after 2%nat|].
  rewrite bind_read_cases. cbn zeta. cbn [w_s3 w_next_id with_next_id with_trace].
  rewrite Hfiles.
  destruct (w_fault _ (CsvRead glob)) as [e|]; [stopped_after 3%nat|].
  rewrite bind_read_cases. cbn zeta. cbn [w_s3 w_next_id with_next_id with_trace].
  rewrite Hfiles.
  destruct (w_fault _ (CsvRead glob)) as [e|]; [stopped_after 4%nat|].
  rewrite bind_read_cases. cbn zeta. cbn [w_s3 w_next_id with_next_id with_trace].
  rewrite Hfiles.
  destruct (w_fault _ (CsvRead glob)) as [e|]; [stopped_after 5%nat|].
  match goal with
  | |- context [join_tables ?a ?b ?c ?d ?e] =>
      destruct (join_tables a b c d e) as [j|e1] eqn:Hj
  end.
  - destruct (self_join_name_unresolved _ _ _ _ _ _ _ "date" Hj) as [msg Hmsg].
    py_unfold. unfold df_orderBy. rewrite Hmsg. cbn -[from_csv].
    split_and!; [eauto|exists 5%nat; split; [lia|by rewrite <- !app_assoc]|lia|done].
  - py_unfold. cbn -[from_csv].
    split_and!; [eauto|exists 5%nat; split; [lia|by rewrite <- !app_assoc]|lia|done].
Qed.

(** The landing data of two banks: all five reads succeed, line 103
    raises, and five identifiers have been allocated. *)
Example average_never_computed_on_two_banks :
  let r := transform_try "202611" Session "Bank" two_banks_world in
  r.1 = Raised (AnalysisException "Reference 'date' is ambiguous")
  ∧ w_trace r.2 = replicate 5 (CsvRead "s3a://banking_data/bronze/Bank/*.csv")
  ∧ w_next_id r.2 = 5%nat.
Proof. vm_compute. done. Qed.

(* ================================================================== *)
(** * Null keys *)
(* ================================================================== *)

Lemma key_match_not_null (x y : Row) (a b : attr) :
  key_match x a y b → is_Some (x !! a) ∧ is_Some (y !! b).
Proof.
  unfold key_match, sql_eq. destruct (x !! a), (y !! b); try discriminate. eauto.
Qed.

(** X15 — a null key never joins: in every row of the join of lines
    97-100 each of the eight key columns is non-null, in the record of the
    table it belongs to. *)
Theorem joined_rows_have_no_null_key
    (df1 df2 df3 df4 df5 : DataFrame) (i1 i2 i3 i4 i5 : nat) (j : DataFrame) :
  loaded i1 df1 → loaded i2 df2 → loaded i3 df3 → loaded i4 df4 → loaded i5 df5 →
  NoDup [i1; i2; i3; i4; i5] →
  join_tables df1 df2 df3 df4 df5 = Returned j →
  ∀ row, row ∈ df_rows j →
    is_Some (row_part i1 row !! (i1, "idBank"))
    ∧ is_Some (row_part i2 row !! (i2, "Bank_idBank"))
    ∧ is_Some (row_part i1 row !! (i1, "idBranch"))
    ∧ is_Some (row_part i3 row !! (i3, "Branch_idBranch"))
    ∧ is_Some (row_part i1 row !! (i1, "idClient"))
    ∧ is_Some (row_part i4 row !! (i4, "Client_idClient"))
    ∧ is_Some (row_part i1 row !! (i1, "idAccount"))
    ∧ is_Some (row_part i5 row !! (i5, "Account_idAccount")).
Proof.
  intros L1 L2 L3 L4 L5 Hnd Hj row Hrow.
  apply (join_tables_rows _ _ _ _ _ _ _ _ _ _ _ L1 L2 L3 L4 L5 Hnd Hj) in Hrow
    as (r1 & r2 & r3 & r4 & r5 & Hr1 & Hr2 & Hr3 & Hr4 & Hr5 & E1 & E2 & E3 & E4 & ->).
  destruct (join_parts r1 r2 r3 r4 r5 i1 i2 i3 i4 i5) as (-> & -> & -> & -> & ->);
    eauto using loaded_row.
  apply key_match_not_null in E1 as [? ?], E2 as [? ?], E3 as [? ?], E4 as [? ?].
  by split_and!.
Qed.

Lemma joined_rows_have_no_null_key_witness :
  let df k := from_csv k [orphan_csv] in
  ∃ j, join_tables (df 0) (df 1) (df 2) (df 3) (df 4) = Returned j
       ∧ ∀ row, row ∈ df_rows j → is_Some (row_part 0 row !! (0, "idBank")).
Proof.
  intros df.
  destruct (join_tables (df 0) (df 1) (df 2) (df 3) (df 4)) as [j|e] eqn:Hj;
    [|vm_compute in Hj; discriminate].
  exists j. split; [reflexivity|]. intros row Hrow.
  assert (Hnd : NoDup [0; 1; 2; 3; 4]).
  { repeat (apply NoDup_cons_2;
            [rewrite ?elem_of_cons, elem_of_nil; intros Hin; decompose [or] Hin; lia|]).
    apply NoDup_nil_2. }
  by destruct (joined_rows_have_no_null_key (df 0) (df 1) (df 2) (df 3) (df 4) 0 1 2 3 4 j
              (from_csv_loaded 0 _) (from_csv_loaded 1 _) (from_csv_loaded 2 _)
              (from_csv_loaded 3 _) (from_csv_loaded 4 _) Hnd Hj row Hrow) as (H1 & _).
Defined.
